(** * RSS2Telegram: the per-entry decision pipeline of [rss2telegram_bot.py]

    A shallow embedding of the bot's history store, classifiers, publisher,
    feed orchestrator and scheduler loop, followed by the properties of the
    specification that concern them.

    Conventions of the embedding.
    - Text is a [string] of 8-bit code points; [strip] and [lower] follow
      Python's [str.strip()] and [str.lower()] on that range.
    - Python's [True] / [False] / [None] returned by the two classifiers is
      [option bool]; a result that is a string or [None] is [option string].
      A condition [if x:] is the truthiness test of the value's type.
    - Everything the program gets from outside (replies of the OpenAI
      service, HTTP responses, Telegram deliveries, clock readings, faults of
      the SQLite engine) is read from a script that the functions take as an
      argument; any behaviour of the outside world is some script.
    - A computation threads the [articles] table, appends to a trace of the
      external calls it makes, and returns a value or raises. *)

From Stdlib Require Import String Ascii List ZArith Bool Lia.
From Stdlib Require Import DecimalString.
From Stdlib Require Import Sorted Permutation.
Import ListNotations.
Local Open Scope string_scope.
Local Open Scope Z_scope.

(* ------------------------------------------------------------------------- *)
(** ** Python strings *)

Module PyStr.

(** [str.isspace()] on one code point below 256. *)
Definition is_space (c : ascii) : bool :=
  let n := N_of_ascii c in
  (((9 <=? n) && (n <=? 13)) || ((28 <=? n) && (n <=? 32))
   || (n =? 133) || (n =? 160))%N.

(** [str.lower()] on one code point below 256. *)
Definition to_lower (c : ascii) : ascii :=
  let n := N_of_ascii c in
  if (((65 <=? n) && (n <=? 90))
      || ((192 <=? n) && (n <=? 222) && negb (n =? 215)))%N
  then ascii_of_N (n + 32) else c.

Fixpoint lower (s : string) : string :=
  match s with
  | EmptyString => EmptyString
  | String c t => String (to_lower c) (lower t)
  end.

Fixpoint lstrip (s : string) : string :=
  match s with
  | EmptyString => EmptyString
  | String c t => if is_space c then lstrip t else s
  end.

Fixpoint rstrip (s : string) : string :=
  match s with
  | EmptyString => EmptyString
  | String c t =>
      match rstrip t with
      | EmptyString => if is_space c then EmptyString else String c EmptyString
      | t' => String c t'
      end
  end.

Definition strip (s : string) : string := rstrip (lstrip s).

(** Truthiness of a [str]: the empty string is false. *)
Definition truthy (s : string) : bool :=
  match s with EmptyString => false | String _ _ => true end.

(** [s[:n]] *)
Definition take (n : nat) (s : string) : string := substring 0 n s.

(** [s.replace(old, '')] for a one-character [old]. *)
Fixpoint remove_char (old : ascii) (s : string) : string :=
  match s with
  | EmptyString => EmptyString
  | String c t =>
      if Ascii.eqb c old then remove_char old t else String c (remove_char old t)
  end.

(** [str(n)] for a non-negative integer. *)
Definition of_N (n : N) : string := NilZero.string_of_uint (N.to_uint n).

End PyStr.

(** Truthiness of [True] / [False] / [None]. *)
Definition truthy_tri (b : option bool) : bool :=
  match b with Some true => true | _ => false end.

(** Truthiness of a string or [None]. *)
Definition truthy_opt (s : option string) : bool :=
  match s with Some t => PyStr.truthy t | None => false end.

(* ------------------------------------------------------------------------- *)
(** ** The [articles] table *)

(** Time is counted in microseconds, the resolution of [datetime.now()].
    Clock readings and stored stamps are points of one time axis: the offset
    between the local zone of [datetime.now()] and the UTC of
    [CURRENT_TIMESTAMP] is not modelled. *)
Definition seconds (n : Z) : Z := n * 1000000.
Definition timedelta_days (d : Z) : Z := seconds (d * 86400).
Definition timedelta_hours (h : Z) : Z := seconds (h * 3600).

(** [CURRENT_TIMESTAMP] has a resolution of one second. *)
Definition current_timestamp (now : Z) : Z := now / 1000000 * 1000000.

Module Articles.

Record article := mk_article {
  id : Z;
  link : string;
  title : string;
  keywords : string;
  telegram_link : option string;
  datetime : Z
}.

Definition store := list article.

Definition has_link (l : string) (db : store) : bool :=
  existsb (fun r => String.eqb (link r) l) db.

(** The rowid SQLite gives to a new row: one more than the largest. *)
Definition next_id (db : store) : Z :=
  1 + fold_right (fun r m => Z.max (id r) m) 0 db.

(** [ORDER BY datetime DESC]: rows with equal stamps keep the table's order. *)
Fixpoint insert_desc (r : article) (rs : list article) : list article :=
  match rs with
  | [] => [r]
  | x :: rest =>
      if datetime x <? datetime r then r :: rs else x :: insert_desc r rest
  end.

Definition order_by_datetime_desc (db : store) : list article :=
  fold_right insert_desc [] db.

(** [SELECT title FROM articles ORDER BY datetime DESC LIMIT 30] *)
Definition select_recent_titles (db : store) : list string :=
  map title (firstn 30 (order_by_datetime_desc db)).

(** [DELETE FROM articles WHERE datetime < ?] *)
Definition delete_older_than (cutoff : Z) (db : store) : store :=
  filter (fun r => negb (datetime r <? cutoff)) db.

(** The [UNIQUE] constraint on [link]. *)
Definition unique_links (db : store) : Prop := NoDup (map link db).

End Articles.

Bind Scope list_scope with Articles.store.

(* ------------------------------------------------------------------------- *)
(** ** Effects: external calls, exceptions, the table *)

(** The exceptions the program can meet.  All are subclasses of Python's
    [Exception]; [IntegrityError] is the one [save_article_to_db] handles. *)
Inductive exn :=
| IntegrityError      (* sqlite3.IntegrityError *)
| OperationalError    (* sqlite3.OperationalError: locked, disk full, no table *)
| DatabaseError       (* any other sqlite3.Error *)
| RequestException    (* requests.get failed *)
| FeedError.          (* feedparser / attribute errors before the entry loop *)

Definition exn_eqb (a b : exn) : bool :=
  match a, b with
  | IntegrityError, IntegrityError
  | OperationalError, OperationalError
  | DatabaseError, DatabaseError
  | RequestException, RequestException
  | FeedError, FeedError => true
  | _, _ => false
  end.

(** One entry of the trace per call that leaves the process, per [time.sleep]
    and per exception handler of an error boundary. *)
Inductive event :=
| EvParseFeed (feed_url : string)                       (* feedparser.parse *)
| EvSelectTitles                                        (* SELECT title ... LIMIT 30 *)
| EvSelectLink (link : string)                          (* SELECT 1 ... WHERE link = ? *)
| EvNovelty (new_title : string) (existing_titles : list string)
| EvFetch (link : string)                               (* requests.get(link) *)
| EvExtract (html : string)                             (* clean_html *)
| EvRelevance (excerpt : string) (link : string)        (* OpenAI call of filter_article *)
| EvGenerate (cleaned_text : string) (link : string)    (* OpenAI call of generate_content *)
| EvImageFetch (image_url : string)                     (* requests.get(image_url) *)
| EvSendPhoto (photo : string) (caption : string)       (* telegram_bot.send_photo *)
| EvSendMessage (text : string)                         (* telegram_bot.send_message *)
| EvSleep (duration : Z)                                (* time.sleep, microseconds *)
| EvInsert (link : string)                              (* INSERT INTO articles *)
| EvDelete (cutoff : Z)                                 (* DELETE FROM articles *)
| EvEntryError (link : string) (e : exn)                (* except of the entry loop *)
| EvMainLoopError (e : exn).                            (* except of the main loop *)

Inductive result (A : Type) :=
| Return (a : A)
| Raise (e : exn).
Arguments Return {A} a.
Arguments Raise {A} e.

Record run (A : Type) := mk_run {
  trace : list event;
  db_after : Articles.store;
  outcome : result A
}.
Arguments mk_run {A}.
Arguments trace {A}.
Arguments db_after {A}.
Arguments outcome {A}.

Definition M (A : Type) : Type := Articles.store -> run A.

Definition ret {A} (a : A) : M A := fun db => mk_run [] db (Return a).

Definition raise {A} (e : exn) : M A := fun db => mk_run [] db (Raise e).

(** What [r] did, after the calls of [t]. *)
Definition prepend {A} (t : list event) (r : run A) : run A :=
  mk_run (t ++ trace r) (db_after r) (outcome r).

Definition bind {A B} (m : M A) (k : A -> M B) : M B :=
  fun db =>
    match m db with
    | mk_run t db' (Return a) => prepend t (k a db')
    | mk_run t db' (Raise e) => mk_run t db' (Raise e)
    end.

Definition emit (ev : event) : M unit := fun db => mk_run [ev] db (Return tt).

Definition get_db : M Articles.store := fun db => mk_run [] db (Return db).

Definition put_db (db' : Articles.store) : M unit :=
  fun _ => mk_run [] db' (Return tt).

(** [try: m  except <class>: h], the handler taking the exceptions that
    [catches] selects.  What [m] did before raising stays done. *)
Definition try_except {A} (catches : exn -> bool) (m : M A) (h : exn -> M A) : M A :=
  fun db =>
    match m db with
    | mk_run t db' (Return a) => mk_run t db' (Return a)
    | mk_run t db' (Raise e) =>
        if catches e then prepend t (h e db') else mk_run t db' (Raise e)
    end.

Definition any_exception (_ : exn) : bool := true.

Declare Scope py_scope.
Delimit Scope py_scope with py.
Notation "x <- m ;; k" := (bind m (fun x => k))
  (at level 61, m at next level, right associativity) : py_scope.
Notation "m ;; k" := (bind m (fun _ => k))
  (at level 61, right associativity) : py_scope.
Local Open Scope py_scope.

(** [for x in xs: body x] *)
Fixpoint for_each {A} (xs : list A) (body : A -> M unit) : M unit :=
  match xs with
  | [] => ret tt
  | x :: rest => body x ;; for_each rest body
  end.

(* ------------------------------------------------------------------------- *)
(** ** What the outside world answers *)

(** A call to [openai_client.chat.completions.create]: the text of the first
    choice, or an exception (transport, quota, a reply without text). *)
Inductive reply :=
| Reply (content : string)
| ServiceFailure.

(** [requests.get(link, timeout=10)] *)
Inductive http :=
| Response (text : string)
| HttpFailure.

(** The worker thread of [clean_html]: the value [parse_html] returns on
    success, an exception inside it, or no result within 5 seconds. *)
Inductive parse_outcome :=
| Parsed (text : string)
| ParseFailed
| ParseTimedOut.

(** [requests.get(image_url, timeout=5)] and [Image.open] on its body:
    the status, the Content-Type header, and the pixel size when the body
    decodes as an image. *)
Inductive image_response :=
| ImageResponse (status_code : Z) (content_type : string) (size : option (Z * Z))
| ImageFetchFailed.

(** One call to [send_photo] / [send_message]. *)
Inductive delivery :=
| Delivered (message_id : N)
| DeliveryFailed.

Record feed_entry := mk_entry {
  entry_link : string;
  entry_title : string
}.

(** The answers one entry meets on its way through [process_rss_feed]. *)
Record script := mk_script {
  select_fault : option exn;        (* the SELECT on the entry's link *)
  novelty_reply : reply;
  page : http;
  parse : parse_outcome;
  relevance_reply : reply;
  summary_reply : reply;
  og_image_content : option string; (* <meta property="og:image" content=...> *)
  image_probe : image_response;
  deliveries : nat -> delivery;     (* by attempt, counted from 0 *)
  insert_fault : option exn;        (* a failure of the INSERT not due to the data *)
  insert_clock : Z                  (* the clock at the INSERT *)
}.

Record feed_poll := mk_poll {
  feed_url : string;
  titles_fault : option exn;        (* the SELECT of the recent titles *)
  entries : list (feed_entry * script)
}.

Record cycle := mk_cycle {
  polls : list feed_poll;           (* one per url of RSS_FEEDS *)
  cleanup_fault : option exn;
  cleanup_clock : Z;                (* datetime.now() in cleanup_old_articles *)
  wait_clock : Z                    (* datetime.now() in wait_until_next_hour *)
}.

(* ------------------------------------------------------------------------- *)
(** ** The functions of [rss2telegram_bot.py] *)

Definition cleanup_old_articles (fault : option exn) (now : Z) : M unit :=
  let cutoff_date := now - timedelta_days 7 in
  emit (EvDelete cutoff_date) ;;
  match fault with
  | Some e => raise e
  | None =>
      db <- get_db ;;
      put_db (Articles.delete_older_than cutoff_date db)
  end.

(** The [INSERT] statement: refused by the [UNIQUE] constraint when the link
    is already stored. *)
Definition insert_article (fault : option exn) (now : Z)
    (link title keywords : string) (telegram_link : option string) : M unit :=
  emit (EvInsert link) ;;
  match fault with
  | Some e => raise e
  | None =>
      db <- get_db ;;
      if Articles.has_link link db then raise IntegrityError
      else put_db (db ++ [Articles.mk_article (Articles.next_id db) link title
                            keywords telegram_link (current_timestamp now)])%list
  end.

Definition save_article_to_db (fault : option exn) (now : Z)
    (link title keywords : string) (telegram_link : option string) : M unit :=
  try_except (exn_eqb IntegrityError)
    (insert_article fault now link title keywords telegram_link)
    (fun _ => ret tt).

Definition clean_html (o : parse_outcome) (html : string) : M string :=
  emit (EvExtract html) ;;
  match o with
  | Parsed text => ret text
  | ParseFailed => ret ""
  | ParseTimedOut => ret ""
  end.

(** The length of the excerpt [cleaned_text[:3000]] sent to the classifier. *)
Definition excerpt_length : nat := 3000.

(** The two prompt templates of the configuration are taken to be well
    formed: [str.format], which runs before the [try], does not raise.  The
    classifier's verdict is computed inside the [try]; any exception there
    gives [None]. *)
Definition filter_article (o : reply) (cleaned_text link : string) : M (option bool) :=
  emit (EvRelevance (PyStr.take excerpt_length cleaned_text) link) ;;
  match o with
  | Reply content =>
      let answer := PyStr.lower (PyStr.strip content) in
      ret (Some (String.eqb (PyStr.lower answer) "yes"))
  | ServiceFailure => ret None
  end.

Definition is_title_similar_with_chatgpt (o : reply) (new_title : string)
    (existing_titles : list string) : M (option bool) :=
  emit (EvNovelty new_title existing_titles) ;;
  match o with
  | Reply content =>
      let decision := PyStr.lower (PyStr.strip content) in
      ret (Some (String.eqb decision "yes"))
  | ServiceFailure => ret None
  end.

Definition extract_main_image (og_content : option string) (probe : image_response)
    : M (option string) :=
  match og_content with
  | Some image_url =>
      if PyStr.truthy image_url then
        emit (EvImageFetch image_url) ;;
        match probe with
        | ImageResponse status_code content_type size =>
            if status_code =? 200 then
              if String.prefix "image/" content_type then
                match size with
                | Some (width, height) =>
                    if (300 <=? width) && (300 <=? height)
                    then ret (Some image_url) else ret None
                | None => ret None
                end
              else ret None
            else ret None
        | ImageFetchFailed => ret None
        end
      else ret None
  | None => ret None
  end.

Definition generate_content (o : reply) (cleaned_text link : string) : M (option string) :=
  if negb (PyStr.truthy (PyStr.strip cleaned_text)) then ret None
  else
    emit (EvGenerate cleaned_text link) ;;
    match o with
    | Reply content => ret (Some (PyStr.strip content))
    | ServiceFailure => ret None
    end.

Definition wait_until_next_hour (now : Z) : M unit :=
  let hour := timedelta_hours 1 in
  let next_hour := (now + hour) / hour * hour in
  let wait_time := next_hour - now in
  emit (EvSleep wait_time).

Section Bot.

Variable CHANNEL_ID : string.

Definition telegram_message_link (message_id : N) : string :=
  "https://t.me/" ++ PyStr.remove_char "-" CHANNEL_ID ++ "/" ++ PyStr.of_N message_id.

(** One delivery call: which API is used depends on [photo_url] only. *)
Definition send (post : string) (photo_url : option string) : event :=
  if truthy_opt photo_url
  then EvSendPhoto (match photo_url with Some u => u | None => "" end) post
  else EvSendMessage post.

(** The body of [for attempt in range(3)], over the attempts still to make. *)
Fixpoint publish_attempts (attempts : list nat) (outcomes : nat -> delivery)
    (post : string) (photo_url : option string) : M (option string) :=
  match attempts with
  | [] => ret None
  | attempt :: rest =>
      emit (send post photo_url) ;;
      match outcomes attempt with
      | Delivered message_id => ret (Some (telegram_message_link message_id))
      | DeliveryFailed =>
          emit (EvSleep (seconds 5)) ;;
          publish_attempts rest outcomes post photo_url
      end
  end.

Definition publish_to_telegram (outcomes : nat -> delivery)
    (post : string) (photo_url : option string) : M (option string) :=
  publish_attempts (seq 0 3) outcomes post photo_url.

(** The body of the [try] in the entry loop; [ret tt] is [continue]. *)
Definition process_entry (existing_titles : list string) (entry : feed_entry)
    (sc : script) : M unit :=
  let link := entry_link entry in
  let new_title := entry_title entry in
  emit (EvSelectLink link) ;;
  already_exists <-
    match select_fault sc with
    | Some e => raise e
    | None => db <- get_db ;; ret (Articles.has_link link db)
    end ;;
  if already_exists then ret tt
  else
    similar <- is_title_similar_with_chatgpt (novelty_reply sc) new_title existing_titles ;;
    if truthy_tri similar then ret tt
    else
      emit (EvFetch link) ;;
      html <- match page sc with
              | Response text => ret text
              | HttpFailure => raise RequestException
              end ;;
      cleaned_text <- clean_html (parse sc) html ;;
      relevant <- filter_article (relevance_reply sc) cleaned_text link ;;
      if negb (truthy_tri relevant) then ret tt
      else
        post <- generate_content (summary_reply sc) cleaned_text link ;;
        match post with
        | None => ret tt
        | Some post =>
            if negb (PyStr.truthy post) then ret tt
            else
              photo_url <- extract_main_image (og_image_content sc) (image_probe sc) ;;
              telegram_link <- publish_to_telegram (deliveries sc) post photo_url ;;
              if truthy_opt telegram_link
              then save_article_to_db (insert_fault sc) (insert_clock sc)
                     link new_title cleaned_text telegram_link
              else ret tt
        end.

(** One turn of the entry loop, with its [except Exception]. *)
Definition process_entry_guarded (existing_titles : list string)
    (es : feed_entry * script) : M unit :=
  try_except any_exception
    (process_entry existing_titles (fst es) (snd es))
    (fun e => emit (EvEntryError (entry_link (fst es)) e)).

Definition process_rss_feed (poll : feed_poll) : M unit :=
  emit (EvParseFeed (feed_url poll)) ;;
  emit EvSelectTitles ;;
  existing_titles <-
    match titles_fault poll with
    | Some e => raise e
    | None => db <- get_db ;; ret (Articles.select_recent_titles db)
    end ;;
  for_each (entries poll) (process_entry_guarded existing_titles).

(** One turn of [while True], with its [except Exception]. *)
Definition main_cycle (c : cycle) : M unit :=
  try_except any_exception
    (for_each (polls c) process_rss_feed ;;
     cleanup_old_articles (cleanup_fault c) (cleanup_clock c) ;;
     wait_until_next_hour (wait_clock c))
    (fun e => emit (EvMainLoopError e)).

(** [main], run for as many turns of the loop as [cycles] describes; the
    loop has no exit, so an execution is described by every finite prefix. *)
Definition main (start_clock : Z) (cycles : list cycle) : M unit :=
  wait_until_next_hour start_clock ;;
  for_each cycles main_cycle.

End Bot.

(* ------------------------------------------------------------------------- *)
(** ** Vocabulary of the properties *)

(** The spellings of the affirmative token that differ in case only. *)
Definition yes_spellings : list string :=
  ["yes"; "yeS"; "yEs"; "yES"; "Yes"; "YeS"; "YEs"; "YES"].

(** The number of stored rows with a given link. *)
Definition count_link (l : string) (db : Articles.store) : nat :=
  count_occ string_dec (map Articles.link db) l.


(** A delivery call to Telegram. *)
Definition is_delivery (ev : event) : bool :=
  match ev with
  | EvSendPhoto _ _ | EvSendMessage _ => true
  | _ => false
  end.

Definition is_text_delivery (ev : event) : bool :=
  match ev with EvSendMessage _ => true | _ => false end.

(** The steps of the protocol that follow the relevance check. *)
Definition after_relevance (ev : event) : bool :=
  match ev with
  | EvGenerate _ _ | EvImageFetch _ | EvSendPhoto _ _ | EvSendMessage _
  | EvInsert _ => true
  | _ => false
  end.

(** [k] is the first attempt, among the three, that is delivered. *)
Definition first_delivered (outcomes : nat -> delivery) (k : nat) (message_id : N) : Prop :=
  (k < 3)%nat /\ outcomes k = Delivered message_id /\
  forall j, (j < k)%nat -> outcomes j = DeliveryFailed.

(** The trace of [n] failed attempts: a call and a wait of five seconds each. *)
Definition failed_attempts (call : event) (n : nat) : list event :=
  concat (repeat [call; EvSleep (seconds 5)] n).

(** Neither a delivery nor an insert. *)
Definition silent (ev : event) : bool :=
  match ev with
  | EvSendPhoto _ _ | EvSendMessage _ | EvInsert _ => false
  | _ => true
  end.

(** What the entry boundary logs for the outcome of an insert. *)
Definition insert_error_log (lnk : string) (fault : option exn) : list event :=
  match fault with
  | Some e => if exn_eqb IntegrityError e then [] else [EvEntryError lnk e]
  | None => []
  end.

(* ------------------------------------------------------------------------- *)
(** ** Sample executions *)

Module Sample.

Definition channel : string := "-1001234".

Definition entry : feed_entry := mk_entry "https://a/1" "X launches Y".

Definition always (d : delivery) : nat -> delivery := fun _ => d.

(** Every service answers and accepts the entry. *)
Definition accepted : script :=
  mk_script None (Reply "No") (Response "<html>X launches Y</html>")
    (Parsed "X launches Y") (Reply "Yes") (Reply "X has launched Y.")
    None ImageFetchFailed (always (Delivered 42)) None 1700000000123456.

(** The novelty call fails; everything else as in [accepted]. *)
Definition novelty_down : script :=
  mk_script None ServiceFailure (Response "<html>X launches Y</html>")
    (Parsed "X launches Y") (Reply "Yes") (Reply "X has launched Y.")
    None ImageFetchFailed (always (Delivered 42)) None 1700000000123456.

(** The extraction runs out of time. *)
Definition extraction_timeout : script :=
  mk_script None (Reply "No") (Response "<html>X launches Y</html>")
    ParseTimedOut (Reply "No") (Reply "X has launched Y.")
    None ImageFetchFailed (always (Delivered 42)) None 1700000000123456.

(** The relevance classifier answers something else than the token. *)
Definition undecided : script :=
  mk_script None (Reply "No") (Response "<html>X launches Y</html>")
    (Parsed "X launches Y") (Reply "Yes, probably") (Reply "X has launched Y.")
    None ImageFetchFailed (always (Delivered 42)) None 1700000000123456.

(** Telegram refuses every delivery. *)
Definition undeliverable : script :=
  mk_script None (Reply "No") (Response "<html>X launches Y</html>")
    (Parsed "X launches Y") (Reply "Yes") (Reply "X has launched Y.")
    None ImageFetchFailed (always DeliveryFailed) None 1700000000123456.

(** The page declares an image that passes the checks; Telegram refuses
    every delivery. *)
Definition photo_undeliverable : script :=
  mk_script None (Reply "No") (Response "<html>X launches Y</html>")
    (Parsed "X launches Y") (Reply "Yes") (Reply "X has launched Y.")
    (Some "https://a/1.png") (ImageResponse 200 "image/png" (Some (640, 480)))
    (always DeliveryFailed) None 1700000000123456.

(** The second delivery goes through. *)
Definition second_attempt (k : nat) : delivery :=
  match k with 1%nat => Delivered 43 | _ => DeliveryFailed end.

(** The delivery goes through and the database is locked at the insert. *)
Definition locked_at_insert : script :=
  mk_script None (Reply "No") (Response "<html>X launches Y</html>")
    (Parsed "X launches Y") (Reply "Yes") (Reply "X has launched Y.")
    None ImageFetchFailed (always (Delivered 42)) (Some OperationalError)
    1700000000123456.

Definition stored : Articles.article :=
  Articles.mk_article 1 "https://a/1" "X launches Y" "X launches Y"
    (Some "https://t.me/1001234/42") 1700000000000000.

Definition feed : feed_poll := mk_poll "https://a/rss" None [].

(** Two turns of the main loop; the database is locked when the first
    turn reaches the eviction, five seconds after the hour. *)
Definition locked_at_cleanup : list cycle :=
  [ mk_cycle [feed] (Some OperationalError) (seconds 3605) (seconds 3605);
    mk_cycle [feed] None (seconds 3606) (seconds 3607) ].

End Sample.

(* ------------------------------------------------------------------------- *)
(** ** The schema of the database file *)

(** What [ensure_database_exists] and [setup_database] see of the file: the
    column names of the [articles] table when the table exists.  The rows
    are the [Articles.store] of the computations above. *)
Module Schema.

Definition schema := option (list string).

Definition required_columns : list string :=
  ["id"; "link"; "title"; "keywords"; "telegram_link"; "datetime"].

(** [PRAGMA table_info(articles)], the name of each column: no row for a
    table that does not exist. *)
Definition table_info (s : schema) : list string :=
  match s with
  | Some columns => columns
  | None => []
  end.

(** [required.issubset(set(columns))] *)
Definition issubset (required columns : list string) : bool :=
  forallb (fun c => existsb (String.eqb c) columns) required.

(** [CREATE TABLE IF NOT EXISTS articles (...)] *)
Definition setup_database (s : schema) : schema :=
  match s with
  | Some columns => Some columns
  | None => Some required_columns
  end.

Definition ensure_database_exists (s : schema) : schema :=
  let columns := table_info s in
  if negb (issubset required_columns columns) then setup_database s else s.

End Schema.

(* ------------------------------------------------------------------------- *)
(** ** The text that [parse_html] returns *)

(** The last statement of [parse_html], on the text that [soup.get_text]
    gives:
    ["\n".join(line.strip() for line in text.splitlines() if line.strip())]. *)
Module Lines.

(** The line boundaries of [str.splitlines()] below code point 256. *)
Definition is_linebreak (c : ascii) : bool :=
  let n := N_of_ascii c in
  (((10 <=? n) && (n <=? 13)) || ((28 <=? n) && (n <=? 30)) || (n =? 133))%N.

Definition is_cr (c : ascii) : bool := (N_of_ascii c =? 13)%N.
Definition is_lf (c : ascii) : bool := (N_of_ascii c =? 10)%N.

(** [str.splitlines()]: the lines without their boundaries; a carriage
    return followed by a line feed is one boundary, and a boundary at the
    end of the text opens no line.  [after_cr] tells that the character
    before was a carriage return. *)
Fixpoint lines_from (after_cr : bool) (s : string) : list string :=
  match s with
  | EmptyString => []
  | String c t =>
      if after_cr && is_lf c then lines_from false t
      else if is_linebreak c then EmptyString :: lines_from (is_cr c) t
      else match lines_from false t with
           | [] => [String c EmptyString]
           | l :: ls => String c l :: ls
           end
  end.

Definition splitlines (s : string) : list string := lines_from false s.

(** The lines kept: stripped, and dropped when nothing is left. *)
Definition kept_lines (text : string) : list string :=
  filter PyStr.truthy (map PyStr.strip (splitlines text)).

Definition normalize (text : string) : string :=
  String.concat (String (ascii_of_N 10) EmptyString) (kept_lines text).

End Lines.

(** Every character of [s] satisfies [p]. *)
Fixpoint all_chars (p : ascii -> bool) (s : string) : bool :=
  match s with
  | EmptyString => true
  | String c t => p c && all_chars p t
  end.

(** [s] is made of whitespace only. *)
Definition all_space (s : string) : bool := all_chars PyStr.is_space s.

(** [s] holds no line boundary. *)
Definition one_line (s : string) : bool :=
  all_chars (fun c => negb (Lines.is_linebreak c)) s.


(** The classifier reply is, once trimmed, a spelling of the affirmative
    token. *)
Definition says_yes (o : reply) : bool :=
  match o with
  | Reply content => String.eqb (PyStr.lower (PyStr.strip content)) "yes"
  | ServiceFailure => false
  end.

(** The lookup of a link. *)
Definition is_lookup (ev : event) : bool :=
  match ev with EvSelectLink _ => true | _ => false end.

(** What the processing of one entry can leave in the trace after its
    lookup: no lookup, no event of the feed or of the scheduler, and no
    novelty call but the one for the entry's title with the given titles. *)
Definition entry_event (new_title : string) (titles : list string)
    (ev : event) : Prop :=
  match ev with
  | EvSelectLink _ | EvParseFeed _ | EvSelectTitles | EvDelete _
  | EvMainLoopError _ => False
  | EvNovelty t ts => t = new_title /\ ts = titles
  | _ => True
  end.

(** The row that [save_article_to_db] writes. *)
Definition new_row (db : Articles.store) (now : Z) (lnk ttl text tl : string)
    : Articles.article :=
  Articles.mk_article (Articles.next_id db) lnk ttl text (Some tl)
    (current_timestamp now).

(** Every row carries the link of a message. *)
Definition published (db : Articles.store) : Prop :=
  forall row, In row db ->
    exists tl, Articles.telegram_link row = Some tl /\ PyStr.truthy tl = true.

Module SampleFeed.

(** The same story from a second source. *)
Definition second_source : feed_entry := mk_entry "https://b/7" "X launches Y".

(** A feed with the two entries, each accepted by every stage. *)
Definition two_sources : feed_poll :=
  mk_poll "https://a/rss" None
    [(Sample.entry, Sample.accepted); (second_source, Sample.accepted)].

(** A feed whose titles cannot be read. *)
Definition locked : feed_poll :=
  mk_poll "https://c/rss" (Some OperationalError)
    [(Sample.entry, Sample.accepted)].

(** A turn in which the second of three feeds fails. *)
Definition second_feed_fails : cycle :=
  mk_cycle [Sample.feed; locked; two_sources] None (seconds 3605) (seconds 3607).


End SampleFeed.

(* ------------------------------------------------------------------------- *)
(** ** Strings *)

Lemma to_lower_idempotent (c : ascii) :
  PyStr.to_lower (PyStr.to_lower c) = PyStr.to_lower c.
Proof.
  destruct c as [[] [] [] [] [] [] [] []]; vm_compute; reflexivity.
Qed.

Lemma lower_idempotent (s : string) : PyStr.lower (PyStr.lower s) = PyStr.lower s.
Proof.
  induction s as [|c t IH]; simpl; [reflexivity|].
  now rewrite to_lower_idempotent, IH.
Qed.

Lemma to_lower_y (c : ascii) :
  PyStr.to_lower c = "y"%char -> c = "y"%char \/ c = "Y"%char.
Proof.
  destruct c as [[] [] [] [] [] [] [] []]; vm_compute; intros H;
    try discriminate H; auto.
Qed.

Lemma to_lower_e (c : ascii) :
  PyStr.to_lower c = "e"%char -> c = "e"%char \/ c = "E"%char.
Proof.
  destruct c as [[] [] [] [] [] [] [] []]; vm_compute; intros H;
    try discriminate H; auto.
Qed.

Lemma to_lower_s (c : ascii) :
  PyStr.to_lower c = "s"%char -> c = "s"%char \/ c = "S"%char.
Proof.
  destruct c as [[] [] [] [] [] [] [] []]; vm_compute; intros H;
    try discriminate H; auto.
Qed.

(** Lower-casing gives ["yes"] exactly on the eight spellings. *)
Lemma lower_is_yes (t : string) :
  PyStr.lower t = "yes" <-> In t yes_spellings.
Proof.
  split.
  - destruct t as [|a [|b [|c [|d t]]]]; simpl; intros H; try discriminate H.
    injection H as Ha Hb Hc.
    apply to_lower_y in Ha. apply to_lower_e in Hb. apply to_lower_s in Hc.
    destruct Ha, Hb, Hc; subst; tauto.
  - unfold yes_spellings. simpl.
    intros [H|[H|[H|[H|[H|[H|[H|[H|[]]]]]]]]]; subst; reflexivity.
Qed.

Lemma eqb_yes_spec (t : string) :
  String.eqb (PyStr.lower t) "yes" = true <-> In t yes_spellings.
Proof. rewrite String.eqb_eq. apply lower_is_yes. Qed.

(* ------------------------------------------------------------------------- *)
(** ** The table *)

Lemma has_link_In (l : string) (db : Articles.store) :
  Articles.has_link l db = true <-> In l (map Articles.link db).
Proof.
  unfold Articles.has_link. rewrite existsb_exists, in_map_iff.
  split; intros [r [H1 H2]]; exists r.
  - apply String.eqb_eq in H2. tauto.
  - rewrite H1, String.eqb_refl. tauto.
Qed.

Lemma has_link_count (l : string) (db : Articles.store) :
  Articles.has_link l db = true <-> (0 < count_link l db)%nat.
Proof.
  rewrite has_link_In. unfold count_link.
  rewrite (count_occ_In string_dec). unfold gt. tauto.
Qed.

Lemma unique_links_count (db : Articles.store) :
  Articles.unique_links db <-> forall l, (count_link l db <= 1)%nat.
Proof. unfold Articles.unique_links, count_link. apply NoDup_count_occ. Qed.

Lemma count_link_app (l : string) (db1 db2 : Articles.store) :
  count_link l (db1 ++ db2) = (count_link l db1 + count_link l db2)%nat.
Proof. unfold count_link. now rewrite map_app, count_occ_app. Qed.

(** The run of the [INSERT] when the engine itself does not fail. *)
Lemma insert_article_run now l t k tl (db : Articles.store) :
  insert_article None now l t k tl db =
  if Articles.has_link l db
  then mk_run [EvInsert l] db (Raise IntegrityError)
  else mk_run [EvInsert l]
         (db ++ [Articles.mk_article (Articles.next_id db) l t k tl (current_timestamp now)])
         (Return tt).
Proof.
  unfold insert_article, bind, emit, get_db, put_db, raise. simpl.
  destruct (Articles.has_link l db); reflexivity.
Qed.

Lemma save_article_to_db_run now l t k tl (db : Articles.store) :
  save_article_to_db None now l t k tl db =
  mk_run [EvInsert l]
    (if Articles.has_link l db then db
     else db ++ [Articles.mk_article (Articles.next_id db) l t k tl (current_timestamp now)])
    (Return tt).
Proof.
  unfold save_article_to_db, try_except. rewrite insert_article_run.
  destruct (Articles.has_link l db); reflexivity.
Qed.

(** Saving keeps the [UNIQUE] constraint, whatever the engine does. *)
Lemma save_article_to_db_unique fault now l t k tl (db : Articles.store) :
  Articles.unique_links db ->
  Articles.unique_links (db_after (save_article_to_db fault now l t k tl db)).
Proof.
  intros U. destruct fault as [e|].
  - unfold save_article_to_db, try_except, insert_article, bind, emit, raise. simpl.
    destruct e; exact U.
  - rewrite save_article_to_db_run. simpl.
    destruct (Articles.has_link l db) eqn:E; [exact U|].
    apply unique_links_count. intros l'. rewrite count_link_app.
    pose proof (proj1 (unique_links_count db) U l') as Hle.
    unfold count_link at 2. simpl.
    destruct (string_dec l l') as [->|]; [|lia].
    assert (count_link l' db = 0%nat); [|lia].
    destruct (count_link l' db) eqn:C; [reflexivity|].
    assert (Articles.has_link l' db = true) by (apply has_link_count; lia).
    congruence.
Qed.

Lemma delete_older_than_unique cutoff (db : Articles.store) :
  Articles.unique_links db ->
  Articles.unique_links (Articles.delete_older_than cutoff db).
Proof.
  unfold Articles.unique_links, Articles.delete_older_than.
  induction db as [|r db IH]; simpl; intros U; [exact U|].
  inversion U as [|? ? Hn U']; subst.
  destruct (negb (Articles.datetime r <? cutoff)); simpl; [|auto].
  constructor; [|auto].
  intros Hin. apply Hn. apply in_map_iff in Hin. destruct Hin as [x [Hx Hf]].
  apply filter_In in Hf. apply in_map_iff. exists x. tauto.
Qed.

Lemma count_link_stored (l : string) (db : Articles.store) :
  Articles.unique_links db -> Articles.has_link l db = true ->
  count_link l db = 1%nat.
Proof.
  intros U H. apply has_link_count in H.
  pose proof (proj1 (unique_links_count db) U l). lia.
Qed.

(** C6: inserting a record for a link that is already stored returns normally,
    leaves the table as it was, and the table holds exactly one record for
    that link. *)
Theorem save_article_to_db_existing_link :
  forall now l t k tl (db : Articles.store),
    Articles.unique_links db ->
    Articles.has_link l db = true ->
    let r := save_article_to_db None now l t k tl db in
    outcome r = Return tt /\ db_after r = db /\ count_link l (db_after r) = 1%nat.
Proof.
  intros now l t k tl db U H r. subst r.
  rewrite save_article_to_db_run, H. simpl.
  repeat split. now apply count_link_stored.
Qed.

(** Two inserts of the same link, starting from any table: one record. *)
Lemma save_article_to_db_twice now1 now2 l t1 k1 tl1 t2 k2 tl2 (db : Articles.store) :
  Articles.unique_links db ->
  let r := (save_article_to_db None now1 l t1 k1 tl1 ;;
            save_article_to_db None now2 l t2 k2 tl2) db in
  outcome r = Return tt /\ count_link l (db_after r) = 1%nat /\
  db_after r = db_after (save_article_to_db None now1 l t1 k1 tl1 db).
Proof.
  intros U r. subst r. unfold bind.
  pose proof (save_article_to_db_unique None now1 l t1 k1 tl1 db U) as U1.
  assert (H1 : Articles.has_link l
                 (db_after (save_article_to_db None now1 l t1 k1 tl1 db)) = true).
  { rewrite save_article_to_db_run. simpl.
    destruct (Articles.has_link l db) eqn:E; [exact E|].
    apply has_link_count. rewrite count_link_app. unfold count_link at 2. simpl.
    destruct (string_dec l l); [lia|congruence]. }
  pose proof (count_link_stored l _ U1 H1) as Hc.
  rewrite (save_article_to_db_run now1 l t1 k1 tl1 db) in *. simpl in *.
  rewrite save_article_to_db_run, H1. simpl. auto.
Qed.


(* ------------------------------------------------------------------------- *)
(** ** The publisher *)

Section Publisher.

Variable CHANNEL_ID : string.
Variable outcomes : nat -> delivery.
Variable post : string.
Variable photo_url : option string.

Let call := send post photo_url.

(** Attempts that all fail: a call and a wait each, and no link. *)
Lemma publish_attempts_all_fail (attempts : list nat) (db : Articles.store) :
  (forall a, In a attempts -> outcomes a = DeliveryFailed) ->
  publish_attempts CHANNEL_ID attempts outcomes post photo_url db =
  mk_run (failed_attempts call (length attempts)) db (Return None).
Proof.
  induction attempts as [|a rest IH]; intros F; [reflexivity|].
  simpl publish_attempts. unfold bind at 1. simpl.
  rewrite (F a (or_introl eq_refl)).
  unfold bind at 1. simpl. rewrite IH by (intros; apply F; now right).
  reflexivity.
Qed.

(** Failed attempts followed by a delivered one: the loop stops there. *)
Lemma publish_attempts_first_success (failed : list nat) (k : nat) (rest : list nat)
    (message_id : N) (db : Articles.store) :
  (forall a, In a failed -> outcomes a = DeliveryFailed) ->
  outcomes k = Delivered message_id ->
  publish_attempts CHANNEL_ID (failed ++ k :: rest) outcomes post photo_url db =
  mk_run (failed_attempts call (length failed) ++ [call]) db
    (Return (Some (telegram_message_link CHANNEL_ID message_id))).
Proof.
  intros F D. induction failed as [|a failed IH].
  - simpl. unfold bind at 1. simpl. rewrite D. reflexivity.
  - simpl publish_attempts. unfold bind at 1. simpl.
    rewrite (F a (or_introl eq_refl)).
    unfold bind at 1. simpl. rewrite IH by (intros; apply F; now right).
    reflexivity.
Qed.

Lemma publish_to_telegram_exhausted (db : Articles.store) :
  (forall k, (k < 3)%nat -> outcomes k = DeliveryFailed) ->
  publish_to_telegram CHANNEL_ID outcomes post photo_url db =
  mk_run (failed_attempts call 3) db (Return None).
Proof.
  intros F. unfold publish_to_telegram.
  rewrite publish_attempts_all_fail; [reflexivity|].
  intros a Ha. apply F. apply in_seq in Ha. lia.
Qed.

Lemma publish_to_telegram_delivered (k : nat) (message_id : N) (db : Articles.store) :
  first_delivered outcomes k message_id ->
  publish_to_telegram CHANNEL_ID outcomes post photo_url db =
  mk_run (failed_attempts call k ++ [call]) db
    (Return (Some (telegram_message_link CHANNEL_ID message_id))).
Proof.
  intros (Hk & D & F). unfold publish_to_telegram.
  replace (seq 0 3) with (seq 0 k ++ k :: seq (S k) (3 - S k))%list.
  - rewrite publish_attempts_first_success with (message_id := message_id).
    + now rewrite length_seq.
    + intros a Ha. apply F. apply in_seq in Ha. lia.
    + exact D.
  - change (k :: seq (S k) (3 - S k)) with (seq k (S (3 - S k))).
    rewrite <- seq_app. f_equal. lia.
Qed.

(** Either all three attempts fail or there is a first delivered one. *)
Lemma deliveries_cases :
  (forall k, (k < 3)%nat -> outcomes k = DeliveryFailed) \/
  exists k message_id, first_delivered outcomes k message_id.
Proof.
  unfold first_delivered.
  destruct (outcomes 0%nat) as [m0|] eqn:E0.
  { right. exists 0%nat, m0. split; [lia|]. split; [assumption|]. intros j Hj. lia. }
  destruct (outcomes 1%nat) as [m1|] eqn:E1.
  { right. exists 1%nat, m1. split; [lia|]. split; [assumption|].
    intros j Hj. assert (j = 0%nat) by lia. now subst. }
  destruct (outcomes 2%nat) as [m2|] eqn:E2.
  { right. exists 2%nat, m2. split; [lia|]. split; [assumption|].
    intros j Hj. assert (C : (j = 0 \/ j = 1)%nat) by lia.
    destruct C as [->| ->]; assumption. }
  left. intros k Hk.
  assert (C : (k = 0 \/ k = 1 \/ k = 2)%nat) by lia.
  destruct C as [->|[->| ->]]; assumption.
Qed.

Lemma telegram_message_link_truthy (message_id : N) :
  PyStr.truthy (telegram_message_link CHANNEL_ID message_id) = true.
Proof. reflexivity. Qed.

(** C5: when every attempt fails the publisher calls Telegram exactly three
    times, waits five seconds after each failure and returns nothing; when
    attempt [k] of the three is the first to be delivered it makes [k]
    failed calls, each followed by the wait, then the delivered call, and
    returns the link of the message. *)
Theorem publish_to_telegram_retries :
  forall db : Articles.store,
    ((forall k, (k < 3)%nat -> outcomes k = DeliveryFailed) ->
     publish_to_telegram CHANNEL_ID outcomes post photo_url db =
     mk_run [call; EvSleep (seconds 5); call; EvSleep (seconds 5);
             call; EvSleep (seconds 5)] db (Return None)) /\
    (forall k message_id,
       first_delivered outcomes k message_id ->
       let r := publish_to_telegram CHANNEL_ID outcomes post photo_url db in
       trace r = (failed_attempts call k ++ [call])%list /\
       length (filter is_delivery (trace r)) = S k /\
       db_after r = db /\
       outcome r = Return (Some (telegram_message_link CHANNEL_ID message_id))).
Proof.
  intros db. split.
  - intros F. now rewrite publish_to_telegram_exhausted.
  - intros k message_id FD r. subst r.
    rewrite (publish_to_telegram_delivered k message_id db FD). simpl.
    repeat split.
    destruct FD as (Hk & _ & _). subst call. unfold send.
    assert (C : (k = 0 \/ k = 1 \/ k = 2)%nat) by lia.
    destruct C as [->|[->| ->]]; destruct (truthy_opt photo_url); reflexivity.
Qed.

End Publisher.

(* ------------------------------------------------------------------------- *)
(** ** The classifiers *)

Lemma filter_article_run (o : reply) (cleaned_text lnk : string) (db : Articles.store) :
  filter_article o cleaned_text lnk db =
  mk_run [EvRelevance (PyStr.take excerpt_length cleaned_text) lnk] db
    (Return match o with
            | Reply content =>
                Some (String.eqb (PyStr.lower (PyStr.strip content)) "yes")
            | ServiceFailure => None
            end).
Proof.
  unfold filter_article, bind, emit, ret. simpl.
  destruct o; simpl; [rewrite lower_idempotent|]; reflexivity.
Qed.

Lemma is_title_similar_run (o : reply) (new_title : string) (titles : list string)
    (db : Articles.store) :
  is_title_similar_with_chatgpt o new_title titles db =
  mk_run [EvNovelty new_title titles] db
    (Return match o with
            | Reply content =>
                Some (String.eqb (PyStr.lower (PyStr.strip content)) "yes")
            | ServiceFailure => None
            end).
Proof.
  unfold is_title_similar_with_chatgpt, bind, emit, ret. simpl.
  destruct o; reflexivity.
Qed.

(** The image resolver returns normally, leaves the table alone and does
    nothing but fetch the image; a url it returns is not empty. *)
Lemma extract_main_image_run (og : option string) (probe : image_response)
    (db : Articles.store) :
  exists t v,
    extract_main_image og probe db = mk_run t db (Return v) /\
    (forall ev, In ev t -> exists u, ev = EvImageFetch u) /\
    (forall u, v = Some u -> og = Some u /\ PyStr.truthy u = true).
Proof.
  unfold extract_main_image, bind, emit, ret.
  destruct og as [u|]; [|exists [], None; simpl; intuition discriminate].
  destruct (PyStr.truthy u) eqn:T; [|exists [], None; simpl; intuition discriminate].
  assert (Hev : forall ev, In ev [EvImageFetch u] -> exists u0, ev = EvImageFetch u0).
  { intros ev [<-|[]]. now exists u. }
  assert (Hv : forall v, (v = Some u \/ v = None) ->
               forall u0, v = Some u0 -> Some u = Some u0 /\ PyStr.truthy u0 = true).
  { intros v [->| ->] u0 E; [|discriminate E]. injection E as <-. auto. }
  destruct probe as [st ct [[w h]|]|]; simpl;
    repeat match goal with
      | |- context [if ?b then _ else _] => destruct b
      end; simpl;
    (exists [EvImageFetch u]); eexists; (split; [reflexivity|]);
    (split; [exact Hev|]); apply Hv; auto.
Qed.

Lemma save_article_to_db_fault e now l t k tl (db : Articles.store) :
  save_article_to_db (Some e) now l t k tl db =
  mk_run [EvInsert l] db
    (if exn_eqb IntegrityError e then Return tt else Raise e).
Proof.
  unfold save_article_to_db, try_except, insert_article, bind, emit, raise. simpl.
  destruct e; reflexivity.
Qed.

(* ------------------------------------------------------------------------- *)
(** ** The orchestrator *)

(** *** Running a computation step by step *)

Lemma bind_run_return {A B} (m : M A) (k : A -> M B) (db : Articles.store) t d a :
  m db = mk_run t d (Return a) -> bind m k db = prepend t (k a d).
Proof. unfold bind. intros ->. reflexivity. Qed.

Lemma bind_run_raise {A B} (m : M A) (k : A -> M B) (db : Articles.store) t d e :
  m db = mk_run t d (Raise e) -> bind m k db = mk_run t d (Raise e).
Proof. unfold bind. intros ->. reflexivity. Qed.

Lemma bind_assoc {A B C} (m : M A) (k1 : A -> M B) (k2 : B -> M C) (db : Articles.store) :
  bind (bind m k1) k2 db = bind m (fun x => bind (k1 x) k2) db.
Proof.
  unfold bind. destruct (m db) as [t d [a|e]]; [|reflexivity].
  destruct (k1 a d) as [t1 d1 [b|e]]; unfold prepend; simpl; [|reflexivity].
  destruct (k2 b d1) as [t2 d2 o]; simpl. now rewrite app_assoc.
Qed.

Lemma strip_empty : PyStr.strip "" = "".
Proof. reflexivity. Qed.

Lemma take_empty (n : nat) : PyStr.take n "" = "".
Proof. destruct n; reflexivity. Qed.

Arguments PyStr.strip : simpl never.
Arguments PyStr.lower : simpl never.
Arguments PyStr.take : simpl never.
Arguments String.eqb : simpl never.
Arguments Articles.has_link : simpl never.
Arguments Articles.next_id : simpl never.
Arguments current_timestamp : simpl never.
Arguments seconds : simpl never.
Arguments telegram_message_link : simpl never.
Arguments String.prefix : simpl never.

(** Splits on the innermost answer that blocks the evaluation of [t], unless
    the context already tells it. *)
Ltac split_on t :=
  lazymatch t with
  | context [match ?x with _ => _ end] => split_on x
  | outcome _ => fail "at a call"
  | _ =>
      first [ match goal with H : t = _ |- _ => rewrite H end
            | destruct t eqn:? ]
  end.

(** One step of the computation at the head of the goal: a primitive or a
    classifier call is run, a test on an answer of the script is split.  The
    image resolver, the publisher and the insert are left to their lemmas. *)
Ltac step :=
  lazymatch goal with
  | |- context [bind ?m ?k ?db] =>
      lazymatch m with
      | match ?x with _ => _ end => split_on x
      | bind _ _ => rewrite (bind_assoc _ _ k db)
      | emit _ => rewrite (bind_run_return m k db _ _ _ eq_refl)
      | ret _ => rewrite (bind_run_return m k db _ _ _ eq_refl)
      | get_db => rewrite (bind_run_return m k db _ _ _ eq_refl)
      | put_db _ => rewrite (bind_run_return m k db _ _ _ eq_refl)
      | raise _ => rewrite (bind_run_raise m k db _ _ _ eq_refl)
      | filter_article ?o ?t ?l =>
          rewrite (bind_run_return m k db _ _ _ (filter_article_run o t l db))
      | is_title_similar_with_chatgpt ?o ?n ?ts =>
          rewrite (bind_run_return m k db _ _ _ (is_title_similar_run o n ts db))
      end
  | |- context [match ?x with _ => _ end] => split_on x
  end;
  rewrite ?strip_empty;
  cbn [truthy_tri truthy_opt negb PyStr.truthy].

(** Steps until the call [ev] has been made. *)
Ltac step_until ev :=
  repeat (lazymatch goal with
          | |- context [prepend [ev] _] => fail
          | _ => step
          end).

Lemma prepend_run {A} (t t' : list event) (d : Articles.store) (o : result A) :
  prepend t (mk_run t' d o) = mk_run (t ++ t') d o.
Proof. reflexivity. Qed.

Lemma trace_prepend {A} (t : list event) (r : run A) :
  trace (prepend t r) = (t ++ trace r)%list.
Proof. reflexivity. Qed.

(** Reads the components of a finished run. *)
Ltac read_run :=
  repeat match goal with P := _ |- _ => subst P end;
  unfold ret, raise, emit; rewrite ?prepend_run; cbn.

(** Keeps one copy of the run of [process_entry] in the goal, under the
    property [P] to prove of it. *)
Ltac focus_entry P :=
  lazymatch goal with
  | |- context [process_entry ?c ?ts ?e ?sc ?db] =>
      pattern (process_entry c ts e sc db);
      lazymatch goal with |- ?Q _ => set (P := Q) end
  end.

Ltac unfold_entry :=
  unfold process_entry, clean_html, generate_content;
  cbv beta zeta iota delta
    [select_fault novelty_reply page parse relevance_reply summary_reply
     og_image_content image_probe deliveries insert_fault insert_clock
     entry_link entry_title fst snd].

Section Orchestrator.

Variable CHANNEL_ID : string.
Variable existing_titles : list string.

(** The entry loop's [except Exception] turns a raise into a log entry. *)
Lemma process_entry_guarded_run (entry : feed_entry) (sc : script)
    (db : Articles.store) :
  process_entry_guarded CHANNEL_ID existing_titles (entry, sc) db =
  let r := process_entry CHANNEL_ID existing_titles entry sc db in
  mk_run
    (trace r ++ match outcome r with
                | Return _ => []
                | Raise e => [EvEntryError (entry_link entry) e]
                end)
    (db_after r) (Return tt).
Proof.
  unfold process_entry_guarded, try_except, any_exception. simpl fst. simpl snd.
  destruct (process_entry CHANNEL_ID existing_titles entry sc db) as [t d [[]|e]];
    simpl; [now rewrite app_nil_r|reflexivity].
Qed.

(** The last three stages of the protocol, from the image on, for a link
    that is not stored: either the three deliveries fail and nothing else
    happens, or one is delivered and the insert is attempted. *)
Lemma publish_and_save_run og ip dl ifl ic lnk ttl text post (db : Articles.store) :
  Articles.has_link lnk db = false ->
  exists ti photo,
    extract_main_image og ip db = mk_run ti db (Return photo) /\
    (forall ev, In ev ti -> exists u, ev = EvImageFetch u) /\
    (forall u, photo = Some u -> og = Some u /\ PyStr.truthy u = true) /\
    let tail :=
      (photo_url <- extract_main_image og ip ;;
       telegram_link <- publish_to_telegram CHANNEL_ID dl post photo_url ;;
       if truthy_opt telegram_link
       then save_article_to_db ifl ic lnk ttl text telegram_link
       else ret tt) db in
    ((forall k, (k < 3)%nat -> dl k = DeliveryFailed) /\
     tail = mk_run (ti ++ failed_attempts (send post photo) 3) db (Return tt))
    \/
    (exists k message_id,
       first_delivered dl k message_id /\
       tail =
       mk_run (ti ++ failed_attempts (send post photo) k
                  ++ [send post photo; EvInsert lnk])
         match ifl with
         | None =>
             db ++ [Articles.mk_article (Articles.next_id db) lnk ttl text
                      (Some (telegram_message_link CHANNEL_ID message_id))
                      (current_timestamp ic)]
         | Some _ => db
         end
         match ifl with
         | None => Return tt
         | Some e => if exn_eqb IntegrityError e then Return tt else Raise e
         end).
Proof.
  intros NL.
  destruct (extract_main_image_run og ip db) as (ti & photo & Ei & Hti & Hph).
  exists ti, photo. repeat (split; [assumption|]). cbv zeta.
  rewrite (bind_run_return _ _ _ _ _ _ Ei).
  destruct (deliveries_cases dl) as [F|(k & mid & FD)]; [left|right].
  - split; [exact F|].
    rewrite (bind_run_return _ _ _ _ _ _
               (publish_to_telegram_exhausted CHANNEL_ID dl post photo db F)).
    cbn [truthy_opt]. unfold ret. now rewrite !prepend_run, app_nil_r.
  - exists k, mid. split; [exact FD|].
    rewrite (bind_run_return _ _ _ _ _ _
               (publish_to_telegram_delivered CHANNEL_ID dl post photo k mid db FD)).
    cbn [truthy_opt]. rewrite telegram_message_link_truthy.
    destruct ifl as [e|].
    + rewrite save_article_to_db_fault, !prepend_run.
      now rewrite <- !app_assoc.
    + rewrite save_article_to_db_run, NL, !prepend_run.
      now rewrite <- !app_assoc.
Qed.


(** C4: the relevance classifier answers yes exactly on a reply that is,
    once trimmed, a spelling of the affirmative token; any other reply gives
    no; a failed call gives unknown; and on every answer other than yes the
    orchestrator ends the entry there: no generation, image, delivery or
    insert, the table unchanged. *)
Theorem filter_article_tristate :
  forall (entry : feed_entry) (sc : script) (db : Articles.store)
         (cleaned_text : string),
    let verdict :=
      outcome (filter_article (relevance_reply sc) cleaned_text (entry_link entry) db) in
    (forall content, relevance_reply sc = Reply content ->
       In (PyStr.strip content) yes_spellings -> verdict = Return (Some true)) /\
    (forall content, relevance_reply sc = Reply content ->
       ~ In (PyStr.strip content) yes_spellings -> verdict = Return (Some false)) /\
    (relevance_reply sc = ServiceFailure -> verdict = Return None) /\
    (verdict <> Return (Some true) ->
     let r := process_entry_guarded CHANNEL_ID existing_titles (entry, sc) db in
     db_after r = db /\ outcome r = Return tt /\
     forallb (fun ev => negb (after_relevance ev)) (trace r) = true).
Proof.
  intros entry sc db cleaned_text verdict. subst verdict.
  rewrite filter_article_run. simpl outcome.
  split; [|split; [|split]].
  - intros content -> Hin. apply eqb_yes_spec in Hin. now rewrite Hin.
  - intros content -> Hin.
    destruct (String.eqb _ _) eqn:E; [|reflexivity].
    apply eqb_yes_spec in E. contradiction.
  - intros ->. reflexivity.
  - intros V r. subst r. rewrite process_entry_guarded_run. cbv zeta.
    destruct sc as [sf nr pg ps rr sr og ip dl ifl ic], entry as [lnk ttl].
    simpl in V. focus_entry P. unfold_entry.
    destruct rr as [content|].
    + destruct (String.eqb (PyStr.lower (PyStr.strip content)) "yes") eqn:R;
        [now elim V|].
      repeat step; read_run; auto.
    + repeat step; read_run; auto.
Qed.

(** Uses [publish_and_save_run] at the point where the run has reached
    the image resolver. *)
Ltac run_tail ti photo Ei Hti Hph F k mid FD :=
  lazymatch goal with
  | NL : Articles.has_link ?l ?db = false
    |- context [bind (extract_main_image ?og ?ip) _ ?db] =>
      lazymatch goal with
      | |- context [save_article_to_db ?ifl ?ic l ?ttl ?text] =>
          lazymatch goal with
          | |- context [publish_to_telegram _ ?dl ?post] =>
              let ET := fresh "ET" in
              destruct (publish_and_save_run og ip dl ifl ic l ttl text post db NL)
                as (ti & photo & Ei & Hti & Hph & [[F ET] | (k & mid & FD & ET)]);
              cbv zeta in ET; rewrite ET; clear ET
          end
      end
  end.

Lemma silent_image_fetches (ti : list event) :
  (forall ev, In ev ti -> exists u, ev = EvImageFetch u) ->
  forallb silent ti = true.
Proof.
  intros H. apply forallb_forall. intros ev Hin.
  destruct (H ev Hin) as [u ->]. reflexivity.
Qed.

(** The three ways an entry can end: before any delivery, after three
    failed deliveries, or after a delivery and an attempt to insert.  The
    entry loop goes on in each. *)
Lemma process_entry_guarded_cases (entry : feed_entry) (sc : script)
    (db : Articles.store) :
  let r := process_entry_guarded CHANNEL_ID existing_titles (entry, sc) db in
  let lnk := entry_link entry in
  outcome r = Return tt /\
  ((db_after r = db /\ forallb silent (trace r) = true)
   \/
   (exists pre photo post,
      (forall k, (k < 3)%nat -> deliveries sc k = DeliveryFailed) /\
      outcome (extract_main_image (og_image_content sc) (image_probe sc) db)
      = Return photo /\
      forallb silent pre = true /\
      trace r = (pre ++ failed_attempts (send post photo) 3)%list /\
      db_after r = db)
   \/
   (exists pre photo post k message_id text,
      first_delivered (deliveries sc) k message_id /\
      Articles.has_link lnk db = false /\
      outcome (extract_main_image (og_image_content sc) (image_probe sc) db)
      = Return photo /\
      forallb silent pre = true /\
      trace r = (pre ++ failed_attempts (send post photo) k
                     ++ [send post photo; EvInsert lnk]
                     ++ insert_error_log lnk (insert_fault sc))%list /\
      db_after r =
      match insert_fault sc with
      | None =>
          (db ++ [Articles.mk_article (Articles.next_id db) lnk
                    (entry_title entry) text
                    (Some (telegram_message_link CHANNEL_ID message_id))
                    (current_timestamp (insert_clock sc))])%list
      | Some _ => db
      end)).
Proof.
  intros r lnk. subst r lnk. rewrite process_entry_guarded_run. cbv zeta.
  split; [reflexivity|].
  destruct sc as [sf nr pg ps rr sr og ip dl ifl ic], entry as [lnk ttl].
  cbn [entry_link entry_title og_image_content image_probe deliveries
       insert_fault insert_clock trace db_after outcome].
  focus_entry P. unfold_entry. repeat step.
  all: try (left; read_run; split; reflexivity).
  all: run_tail ti photo Ei Hti Hph F k mid FD; right; [left|right].
  all: read_run.
  all: lazymatch goal with
       | |- context [EvSelectLink ?l :: EvNovelty ?t ?ts :: EvFetch ?l2
                       :: EvExtract ?h :: EvRelevance ?x ?l3
                       :: EvGenerate ?tx ?l4
                       :: (?i ++ failed_attempts (send ?p ?ph) _ ++ _) ++ _] =>
           exists ([EvSelectLink l; EvNovelty t ts; EvFetch l2; EvExtract h;
                    EvRelevance x l3; EvGenerate tx l4] ++ i)%list, ph, p
       | |- context [EvSelectLink ?l :: EvNovelty ?t ?ts :: EvFetch ?l2
                       :: EvExtract ?h :: EvRelevance ?x ?l3
                       :: EvGenerate ?tx ?l4 :: (?i ++ send ?p ?ph :: _) ++ _] =>
           exists ([EvSelectLink l; EvNovelty t ts; EvFetch l2; EvExtract h;
                    EvRelevance x l3; EvGenerate tx l4] ++ i)%list, ph, p
       end.
  all: try (exists k, mid; eexists).
  all: rewrite Ei, forallb_app, (silent_image_fetches ti Hti).
  all: repeat (split; [first [assumption | reflexivity]|]).
  all: split; [|reflexivity].
  all: destruct ifl as [[]|]; cbn [insert_error_log exn_eqb app];
    rewrite <- ?app_assoc, ?app_nil_r; cbn [app]; reflexivity.
Qed.

Lemma silent_no_delivery (t : list event) :
  forallb silent t = true ->
  filter is_delivery t = [] /\ filter is_text_delivery t = [] /\
  forall l, ~ In (EvInsert l) t.
Proof.
  induction t as [|ev t IH]; simpl; [tauto|].
  intros H. apply andb_true_iff in H. destruct H as [Hev Ht].
  destruct (IH Ht) as (I1 & I2 & I3).
  destruct ev; simpl in *; try discriminate Hev;
    (split; [assumption|]); (split; [assumption|]);
    (intros l [E|Hin]; [discriminate E|exact (I3 l Hin)]).
Qed.

Lemma failed_attempts_deliveries (call : event) (n : nat) :
  is_delivery call = true ->
  filter is_delivery (failed_attempts call n) = repeat call n.
Proof.
  intros D. unfold failed_attempts.
  induction n as [|n IH]; simpl; [reflexivity|].
  now rewrite D, IH.
Qed.

Lemma send_is_delivery (post : string) (photo : option string) :
  is_delivery (send post photo) = true.
Proof. unfold send. destruct (truthy_opt photo); reflexivity. Qed.

Lemma send_photo (post u : string) :
  PyStr.truthy u = true -> send post (Some u) = EvSendPhoto u post.
Proof. unfold send. simpl. now intros ->. Qed.

(** C3: when the three deliveries of an entry fail, the table is left as
    it was; and a row that is in the table after the entry and was not
    there before carries the entry's link and the link of a message that
    Telegram accepted for it. *)
Theorem record_only_after_publication :
  forall (entry : feed_entry) (sc : script) (db : Articles.store),
    let r := process_entry_guarded CHANNEL_ID existing_titles (entry, sc) db in
    ((forall k, (k < 3)%nat -> deliveries sc k = DeliveryFailed) ->
     db_after r = db) /\
    (forall row, In row (db_after r) -> ~ In row db ->
       Articles.link row = entry_link entry /\
       exists k message_id post photo,
         first_delivered (deliveries sc) k message_id /\
         Articles.telegram_link row
         = Some (telegram_message_link CHANNEL_ID message_id) /\
         In (send post photo) (trace r)).
Proof.
  intros entry sc db r.
  destruct (process_entry_guarded_cases entry sc db) as (_ & C). fold r in C.
  destruct C as [(D & _) | [(pre & photo & post & _ & _ & _ & _ & D)
                           | (pre & photo & post & k & mid & text & FD & _ & _ & _ & T & D)]].
  - rewrite D. split; [reflexivity|contradiction].
  - rewrite D. split; [reflexivity|contradiction].
  - split.
    + intros F. destruct FD as (Hk & Dk & _). rewrite (F k Hk) in Dk. discriminate Dk.
    + intros row Hin Hnew. rewrite D in Hin.
      destruct (insert_fault sc); [contradiction|].
      apply in_app_or in Hin. destruct Hin as [Hin|[<-|[]]]; [contradiction|].
      split; [reflexivity|]. exists k, mid, post, photo.
      split; [exact FD|]. split; [reflexivity|].
      rewrite T. apply in_or_app. right. apply in_or_app. right. now left.
Qed.

(** C9: when the image resolver gives a url and the three deliveries fail,
    the entry ends with the table unchanged and without a text message:
    the deliveries made, if the entry got that far, are the three
    [send_photo] calls with that url. *)
Theorem photo_failure_has_no_text_fallback :
  forall (entry : feed_entry) (sc : script) (db : Articles.store) (u : string),
    outcome (extract_main_image (og_image_content sc) (image_probe sc) db)
    = Return (Some u) ->
    (forall k, (k < 3)%nat -> deliveries sc k = DeliveryFailed) ->
    let r := process_entry_guarded CHANNEL_ID existing_titles (entry, sc) db in
    db_after r = db /\ outcome r = Return tt /\
    filter is_text_delivery (trace r) = [] /\
    (filter is_delivery (trace r) = [] \/
     exists post, filter is_delivery (trace r) = repeat (EvSendPhoto u post) 3).
Proof.
  intros entry sc db u Hu F r.
  destruct (process_entry_guarded_cases entry sc db) as (O & C). fold r in O, C.
  destruct C as [(D & S) | [(pre & photo & post & _ & Hp & S & T & D)
                           | (pre & photo & post & k & mid & text & FD & _)]].
  - destruct (silent_no_delivery _ S) as (S1 & S2 & _). auto.
  - rewrite Hu in Hp. injection Hp as <-.
    destruct (extract_main_image_run (og_image_content sc) (image_probe sc) db)
      as (ti & v & Ei & _ & Hv).
    rewrite Ei in Hu. injection Hu as ->.
    destruct (Hv u eq_refl) as (_ & Tu).
    rewrite (send_photo post u Tu) in T.
    destruct (silent_no_delivery _ S) as (S1 & S2 & _).
    repeat (split; [assumption|]). split.
    + rewrite T, filter_app, S2. reflexivity.
    + right. exists post.
      rewrite T, filter_app, S1, failed_attempts_deliveries; reflexivity.
  - destruct FD as (Hk & Dk & _). rewrite (F k Hk) in Dk. discriminate Dk.
Qed.

Lemma failed_attempts_no_insert (call : event) (n : nat) (l : string) :
  is_delivery call = true -> ~ In (EvInsert l) (failed_attempts call n).
Proof.
  intros D. unfold failed_attempts.
  induction n as [|n IH]; simpl; [tauto|].
  intros [E|[E|Hin]]; [subst call; discriminate D|discriminate E|auto].
Qed.

(** An entry whose link is not stored gets past the link check: the
    novelty classifier is called for it. *)
Lemma not_stored_reaches_novelty (entry : feed_entry) (sc : script)
    (db : Articles.store) :
  select_fault sc = None ->
  Articles.has_link (entry_link entry) db = false ->
  exists rest,
    trace (process_entry_guarded CHANNEL_ID existing_titles (entry, sc) db) =
    EvSelectLink (entry_link entry)
      :: EvNovelty (entry_title entry) existing_titles :: rest.
Proof.
  intros SF NL. rewrite process_entry_guarded_run. cbv zeta.
  destruct sc as [sf nr pg ps rr sr og ip dl ifl ic], entry as [lnk ttl].
  cbn [entry_link entry_title select_fault trace] in *.
  focus_entry P. unfold_entry.
  step_until (EvNovelty ttl existing_titles).
  subst P. cbv beta. rewrite !trace_prepend. cbn [app].
  eexists. reflexivity.
Qed.

(** C10: when the insert that follows a delivery fails with an error other
    than the duplicate-link conflict, the error leaves [save_article_to_db],
    is logged by the entry loop, which goes on; the message stays delivered,
    the table holds no row for the link, and the same entry presented again
    gets past the link check. *)
Theorem insert_failure_leaves_no_record :
  forall (entry : feed_entry) (sc : script) (db : Articles.store) (e : exn),
    insert_fault sc = Some e ->
    e <> IntegrityError ->
    let r := process_entry_guarded CHANNEL_ID existing_titles (entry, sc) db in
    let lnk := entry_link entry in
    In (EvInsert lnk) (trace r) ->
    (exists k message_id post photo,
       first_delivered (deliveries sc) k message_id /\
       In (send post photo) (trace r)) /\
    (forall now t kw tl d,
       outcome (save_article_to_db (Some e) now lnk t kw tl d) = Raise e) /\
    In (EvEntryError lnk e) (trace r) /\
    outcome r = Return tt /\
    db_after r = db /\
    Articles.has_link lnk (db_after r) = false /\
    forall sc',
      select_fault sc' = None ->
      exists rest,
        trace (process_entry_guarded CHANNEL_ID existing_titles (entry, sc')
                 (db_after r)) =
        EvSelectLink lnk :: EvNovelty (entry_title entry) existing_titles :: rest.
Proof.
  intros entry sc db e IF NE r lnk Hins.
  assert (NEb : exn_eqb IntegrityError e = false) by (destruct e; [now elim NE|reflexivity..]).
  destruct (process_entry_guarded_cases entry sc db) as (O & C).
  fold r in O, C. fold lnk in C.
  destruct C as [(D & S) | [(pre & photo & post & _ & _ & S & T & D)
                           | (pre & photo & post & k & mid & text & FD & NL & _ & S & T & D)]].
  - destruct (silent_no_delivery _ S) as (_ & _ & NI). elim (NI lnk Hins).
  - destruct (silent_no_delivery _ S) as (_ & _ & NI).
    rewrite T in Hins. apply in_app_or in Hins. destruct Hins as [Hin|Hin].
    + elim (NI lnk Hin).
    + elim (failed_attempts_no_insert _ _ _ (send_is_delivery post photo) Hin).
  - rewrite IF in D, T. unfold insert_error_log in T. rewrite NEb in T.
    split.
    { exists k, mid, post, photo. split; [exact FD|].
      rewrite T. apply in_or_app. right. apply in_or_app. right. now left. }
    split; [intros; rewrite save_article_to_db_fault, NEb; reflexivity|].
    split.
    { rewrite T. apply in_or_app. right. apply in_or_app. right.
      right. right. now left. }
    split; [exact O|]. split; [exact D|]. rewrite D. split; [exact NL|].
    intros sc' SF. now apply not_stored_reaches_novelty.
Qed.

(** C2, as the code has it: an entry whose extracted text is empty is not
    stopped after the extraction; the relevance classifier is called with
    the empty excerpt, and the entry ends at the relevance check or, on the
    answer yes, in [generate_content], which returns nothing for blank text
    before calling the service: no generation, image, delivery or insert,
    the table unchanged. *)
Theorem empty_text_reaches_relevance_check :
  forall (entry : feed_entry) (sc : script) (db : Articles.store),
    (forall html d, outcome (clean_html (parse sc) html d) = Return "") ->
    let r := process_entry_guarded CHANNEL_ID existing_titles (entry, sc) db in
    db_after r = db /\ outcome r = Return tt /\
    forallb (fun ev => negb (after_relevance ev)) (trace r) = true /\
    (forall html, In (EvExtract html) (trace r) ->
                  In (EvRelevance "" (entry_link entry)) (trace r)).
Proof.
  intros entry sc db E r. subst r. rewrite process_entry_guarded_run. cbv zeta.
  destruct sc as [sf nr pg ps rr sr og ip dl ifl ic], entry as [lnk ttl].
  cbn [parse entry_link] in *.
  assert (Hps : match ps with Parsed text => text = "" | _ => True end).
  { destruct ps as [text| |]; [|exact I|exact I].
    specialize (E "" []). cbn in E. congruence. }
  clear E. cbn [trace db_after outcome].
  focus_entry P. unfold_entry.
  destruct ps as [text| |]; [subst text| |]; repeat step; read_run;
    rewrite ?take_empty;
    (repeat split; try reflexivity);
    intros html H; simpl in H; simpl; intuition discriminate.
Qed.

(** A failed novelty call does not stop the entry: the page is fetched. *)
Lemma novelty_failure_reaches_fetch (entry : feed_entry) (sc : script)
    (db : Articles.store) :
  select_fault sc = None ->
  Articles.has_link (entry_link entry) db = false ->
  novelty_reply sc = ServiceFailure ->
  exists rest,
    trace (process_entry_guarded CHANNEL_ID existing_titles (entry, sc) db) =
    EvSelectLink (entry_link entry)
      :: EvNovelty (entry_title entry) existing_titles
      :: EvFetch (entry_link entry) :: rest.
Proof.
  intros SF NL NR. rewrite process_entry_guarded_run. cbv zeta.
  destruct sc as [sf nr pg ps rr sr og ip dl ifl ic], entry as [lnk ttl].
  cbn [entry_link entry_title select_fault novelty_reply trace] in *.
  focus_entry P. unfold_entry.
  step_until (EvFetch lnk).
  subst P. cbv beta. rewrite !trace_prepend. cbn [app].
  eexists. reflexivity.
Qed.

(** The novelty answer yes stops the entry after the classifier call. *)
Lemma novelty_yes_skips (entry : feed_entry) (sc : script)
    (db : Articles.store) (content : string) :
  select_fault sc = None ->
  Articles.has_link (entry_link entry) db = false ->
  novelty_reply sc = Reply content ->
  In (PyStr.strip content) yes_spellings ->
  process_entry_guarded CHANNEL_ID existing_titles (entry, sc) db =
  mk_run [EvSelectLink (entry_link entry);
          EvNovelty (entry_title entry) existing_titles] db (Return tt).
Proof.
  intros SF NL NR Y. apply eqb_yes_spec in Y.
  rewrite process_entry_guarded_run. cbv zeta.
  destruct sc as [sf nr pg ps rr sr og ip dl ifl ic], entry as [lnk ttl].
  cbn [entry_link entry_title select_fault novelty_reply trace] in *.
  focus_entry P. unfold_entry.
  repeat step. read_run. reflexivity.
Qed.

End Orchestrator.

(* ------------------------------------------------------------------------- *)
(** ** The scheduler *)

Section Scheduler.

Variable CHANNEL_ID : string.

Lemma for_each_returns {A} (body : A -> M unit) (xs : list A) :
  (forall x db, outcome (body x db) = Return tt) ->
  forall db, outcome (for_each xs body db) = Return tt.
Proof.
  intros B. induction xs as [|x xs IH]; intros db; [reflexivity|].
  simpl. unfold bind. specialize (B x db).
  destruct (body x db) as [t d o]. simpl in B. subst o. apply IH.
Qed.

Lemma for_each_app {A} (body : A -> M unit) (xs ys : list A) (db : Articles.store) :
  (forall x d, outcome (body x d) = Return tt) ->
  trace (for_each (xs ++ ys) body db) =
  (trace (for_each xs body db)
   ++ trace (for_each ys body (db_after (for_each xs body db))))%list.
Proof.
  intros B. revert db. induction xs as [|x xs IH]; intros db; [reflexivity|].
  simpl. unfold bind. specialize (B x db).
  destruct (body x db) as [t d o]. simpl in B. subst o.
  unfold prepend. simpl. now rewrite IH, app_assoc.
Qed.

(** The [except Exception] of the loop: a turn never raises. *)
Lemma main_cycle_returns (c : cycle) (db : Articles.store) :
  outcome (main_cycle CHANNEL_ID c db) = Return tt.
Proof.
  unfold main_cycle, try_except, any_exception.
  match goal with
  | |- context [match ?x with _ => _ end] => destruct x as [t d [[]|e]]
  end; reflexivity.
Qed.

(** The loop never stops: every turn of [cycles] is run, whatever was
    raised in the turns before it. *)
Lemma main_runs_every_cycle (start_clock : Z) (cycles more : list cycle)
    (db : Articles.store) :
  outcome (main CHANNEL_ID start_clock cycles db) = Return tt /\
  exists t,
    trace (main CHANNEL_ID start_clock (cycles ++ more) db) =
    (trace (main CHANNEL_ID start_clock cycles db) ++ t)%list /\
    t = trace (for_each more (main_cycle CHANNEL_ID)
                 (db_after (main CHANNEL_ID start_clock cycles db))).
Proof.
  unfold main, wait_until_next_hour, bind, emit, prepend. cbn [trace db_after outcome].
  split; [apply for_each_returns, main_cycle_returns|].
  eexists. split; [|reflexivity].
  rewrite (for_each_app _ _ _ _ main_cycle_returns). reflexivity.
Qed.

(** A turn whose eviction raises ends with the log entry of the handler:
    [wait_until_next_hour], the last statement of the [try], is not run. *)
Lemma main_cycle_cleanup_failure (c : cycle) (db d : Articles.store)
    (t : list event) (e : exn) :
  for_each (polls c) (process_rss_feed CHANNEL_ID) db = mk_run t d (Return tt) ->
  cleanup_fault c = Some e ->
  main_cycle CHANNEL_ID c db =
  mk_run (t ++ [EvDelete (cleanup_clock c - timedelta_days 7); EvMainLoopError e])
    d (Return tt).
Proof.
  intros F CF. unfold main_cycle, try_except, any_exception.
  rewrite (bind_run_return _ _ _ _ _ _ F).
  unfold cleanup_old_articles. rewrite CF.
  unfold bind, emit, raise, prepend. simpl.
  now rewrite ?app_nil_r, <- ?app_assoc.
Qed.

End Scheduler.

(* ------------------------------------------------------------------------- *)
(** ** Further properties of the table *)

Lemma has_link_app (l : string) (db1 db2 : Articles.store) :
  Articles.has_link l (db1 ++ db2) =
  Articles.has_link l db1 || Articles.has_link l db2.
Proof. unfold Articles.has_link. apply existsb_app. Qed.

(** A saved link is found by the lookup that opens the next processing of
    the entry; the lookup of every other link answers as before, and no
    stored row is lost or changed. *)
Theorem save_article_to_db_then_lookup :
  forall now l t k tl (db : Articles.store),
    let r := save_article_to_db None now l t k tl db in
    Articles.has_link l (db_after r) = true /\
    (forall l', l' <> l ->
                Articles.has_link l' (db_after r) = Articles.has_link l' db) /\
    (exists added, db_after r = (db ++ added)%list).
Proof.
  intros now l t k tl db r. subst r. rewrite save_article_to_db_run.
  cbn [db_after]. destruct (Articles.has_link l db) eqn:E.
  - split; [exact E|]. split; [reflexivity|]. exists []. now rewrite app_nil_r.
  - split; [|split].
    + rewrite has_link_app. unfold Articles.has_link at 2. cbn.
      rewrite String.eqb_refl. now rewrite orb_true_r.
    + intros l' NE. rewrite has_link_app. unfold Articles.has_link at 2. cbn.
      apply String.eqb_neq in NE. rewrite String.eqb_sym, NE. now rewrite !orb_false_r.
    + eexists. reflexivity.
Qed.



(** A later eviction subsumes an earlier one. *)
Theorem cleanup_old_articles_twice :
  forall now1 now2 (db : Articles.store),
    now1 <= now2 ->
    (cleanup_old_articles None now1 ;; cleanup_old_articles None now2) db =
    mk_run [EvDelete (now1 - timedelta_days 7); EvDelete (now2 - timedelta_days 7)]
      (db_after (cleanup_old_articles None now2 db)) (Return tt).
Proof.
  intros now1 now2 db L.
  unfold cleanup_old_articles, bind, emit, get_db, put_db, prepend.
  cbn [trace db_after outcome app]. f_equal.
  unfold Articles.delete_older_than.
  induction db as [|a db IH]; [reflexivity|].
  cbn. destruct (Articles.datetime a <? now1 - timedelta_days 7) eqn:E1;
    destruct (Articles.datetime a <? now2 - timedelta_days 7) eqn:E2; cbn;
    rewrite ?E2, ?IH; try reflexivity.
  apply Z.ltb_lt in E1. apply Z.ltb_ge in E2. lia.
Qed.

Lemma insert_desc_perm (a : Articles.article) (rs : list Articles.article) :
  Permutation (Articles.insert_desc a rs) (a :: rs).
Proof.
  induction rs as [|x rs IH]; cbn; [reflexivity|].
  destruct (Articles.datetime x <? Articles.datetime a); [reflexivity|].
  rewrite IH. apply perm_swap.
Qed.

Lemma insert_desc_sorted (a : Articles.article) (rs : list Articles.article) :
  Sorted (fun x y => Articles.datetime y <= Articles.datetime x) rs ->
  Sorted (fun x y => Articles.datetime y <= Articles.datetime x)
    (Articles.insert_desc a rs).
Proof.
  induction rs as [|x rs IH]; cbn; intros S; [repeat constructor|].
  destruct (Articles.datetime x <? Articles.datetime a) eqn:E.
  - apply Z.ltb_lt in E. constructor; [exact S|]. constructor. lia.
  - apply Z.ltb_ge in E. inversion S as [|? ? S' H]; subst.
    constructor; [auto|].
    destruct rs as [|y rs]; cbn; [constructor; lia|].
    destruct (Articles.datetime y <? Articles.datetime a); constructor; [lia|].
    now inversion H.
Qed.

(** The snapshot of titles that the novelty check gets: those of the thirty
    most recent rows, the most recent first. *)
Theorem select_recent_titles_most_recent :
  forall db : Articles.store,
    exists ordered,
      Permutation ordered db /\
      Sorted (fun x y => Articles.datetime y <= Articles.datetime x) ordered /\
      Articles.select_recent_titles db = map Articles.title (firstn 30 ordered) /\
      length (Articles.select_recent_titles db) = Nat.min 30 (length db).
Proof.
  intros db. exists (Articles.order_by_datetime_desc db).
  assert (P : Permutation (Articles.order_by_datetime_desc db) db).
  { induction db as [|a db IH]; cbn; [constructor|].
    rewrite insert_desc_perm. now constructor. }
  split; [exact P|]. split; [|split; [reflexivity|]].
  - induction db as [|a db IH]; cbn; [constructor|].
    apply insert_desc_sorted. apply IH.
    clear. induction db as [|a db IH]; cbn; [constructor|].
    rewrite insert_desc_perm. now constructor.
  - unfold Articles.select_recent_titles.
    rewrite length_map, length_firstn. now rewrite (Permutation_length P).
Qed.

(* ------------------------------------------------------------------------- *)
(** ** Further properties of the image resolver, the publisher, the waits *)

(** The image resolver returns normally with the table untouched; it gives
    the declared url exactly when the url is not empty, the response has
    status 200 and an image content type, and both sides of the decoded
    image measure at least 300 pixels. *)
Theorem extract_main_image_accepts :
  forall (og : option string) (probe : image_response) (db : Articles.store),
    (exists v, outcome (extract_main_image og probe db) = Return v) /\
    db_after (extract_main_image og probe db) = db /\
    forall u,
      outcome (extract_main_image og probe db) = Return (Some u) <->
      og = Some u /\ PyStr.truthy u = true /\
      exists content_type width height,
        probe = ImageResponse 200 content_type (Some (width, height)) /\
        String.prefix "image/" content_type = true /\
        300 <= width /\ 300 <= height.
Proof.
  intros og probe db.
  destruct (extract_main_image_run og probe db) as (t & v & E & _ & _).
  split; [rewrite E; now exists v|]. split; [now rewrite E|].
  clear t v E. intros u. unfold extract_main_image, bind, emit, ret, prepend.
  destruct og as [u'|]; [|cbn; split; [discriminate|intros (H & _); discriminate H]].
  destruct (PyStr.truthy u') eqn:T;
    [|cbn; split; [discriminate|intros (H & T' & _); injection H as ->; congruence]].
  destruct probe as [st ct sz|];
    [|cbn; split; [discriminate|intros (_ & _ & ct' & w' & h' & H & _); discriminate H]].
  destruct (st =? 200) eqn:S.
  2:{ cbn. split; [discriminate|].
      intros (_ & _ & ct' & w' & h' & H & _). injection H as -> _ _.
      discriminate S. }
  apply Z.eqb_eq in S. subst st.
  destruct (String.prefix "image/" ct) eqn:Pf.
  2:{ cbn. split; [discriminate|].
      intros (_ & _ & ct' & w' & h' & H & Pf' & _). injection H as -> _.
      congruence. }
  destruct sz as [[w h]|].
  2:{ cbn. split; [discriminate|].
      intros (_ & _ & ct' & w' & h' & H & _). discriminate H. }
  destruct ((300 <=? w) && (300 <=? h)) eqn:Sz; cbn.
  - apply andb_true_iff in Sz. destruct Sz as (Hw & Hh).
    apply Z.leb_le in Hw, Hh. split.
    + intros H. injection H as ->. repeat split; try assumption.
      exists ct, w, h. auto.
    + intros (H & _). now injection H as ->.
  - split; [discriminate|].
    intros (_ & _ & ct' & w' & h' & H & _ & Hw & Hh). injection H as _ -> ->.
    apply Z.leb_le in Hw, Hh. rewrite Hw, Hh in Sz. discriminate Sz.
Qed.

(** The publisher, whatever Telegram does: it returns normally with the
    table untouched after one to three delivery calls, all of them the same
    call, with a wait of five seconds after each failure; it returns nothing
    exactly when the three attempts fail, and a link it returns is not
    empty. *)
Theorem publish_to_telegram_total :
  forall (CHANNEL_ID : string) (outcomes : nat -> delivery) (post : string)
         (photo_url : option string) (db : Articles.store),
    let r := publish_to_telegram CHANNEL_ID outcomes post photo_url db in
    db_after r = db /\
    (exists v, outcome r = Return v /\
               (v = None <-> forall k, (k < 3)%nat -> outcomes k = DeliveryFailed) /\
               (forall l, v = Some l -> PyStr.truthy l = true)) /\
    (1 <= length (filter is_delivery (trace r)) <= 3)%nat /\
    (forall ev, In ev (trace r) ->
                ev = send post photo_url \/ ev = EvSleep (seconds 5)).
Proof.
  intros C outcomes post photo db r. subst r.
  assert (A : forall n ev, In ev (failed_attempts (send post photo) n) ->
                           ev = send post photo \/ ev = EvSleep (seconds 5)).
  { unfold failed_attempts. induction n as [|n IH]; cbn; [tauto|].
    intros ev [<-|[<-|H]]; auto. }
  assert (D : forall n, filter is_delivery (failed_attempts (send post photo) n)
                        = repeat (send post photo) n).
  { unfold failed_attempts. induction n as [|n IH]; cbn; [reflexivity|].
    assert (S : is_delivery (send post photo) = true)
      by (unfold send; destruct (truthy_opt photo); reflexivity).
    rewrite S. cbn. now rewrite IH. }
  destruct (deliveries_cases outcomes) as [F|(k & mid & FD)].
  - rewrite (publish_to_telegram_exhausted C outcomes post photo db F).
    cbn [trace db_after outcome]. split; [reflexivity|]. split; [|split].
    + exists None. split; [reflexivity|]. split; [tauto|discriminate].
    + rewrite D. cbn. lia.
    + apply A.
  - rewrite (publish_to_telegram_delivered C outcomes post photo k mid db FD).
    cbn [trace db_after outcome]. split; [reflexivity|]. split; [|split].
    + exists (Some (telegram_message_link C mid)). split; [reflexivity|]. split.
      * split; [discriminate|]. intros F. destruct FD as (Hk & Dk & _).
        rewrite (F k Hk) in Dk. discriminate Dk.
      * intros l H. injection H as <-. apply telegram_message_link_truthy.
    + rewrite filter_app, D, length_app, repeat_length.
      assert (S : is_delivery (send post photo) = true)
        by (unfold send; destruct (truthy_opt photo); reflexivity).
      cbn. rewrite S. cbn. destruct FD as (Hk & _). lia.
    + intros ev H. apply in_app_or in H. destruct H as [H|[<-|[]]]; eauto.
Qed.

Lemma next_hour_wait (now : Z) :
  let hour := timedelta_hours 1 in
  let wait_time := (now + hour) / hour * hour - now in
  0 < wait_time <= hour /\ (now + wait_time) mod hour = 0.
Proof.
  cbv zeta.
  assert (H : 0 < timedelta_hours 1) by reflexivity.
  pose proof (Z.div_mod (now + timedelta_hours 1) (timedelta_hours 1)) as DM.
  pose proof (Z.mod_pos_bound (now + timedelta_hours 1) (timedelta_hours 1) H) as B.
  split; [nia|].
  replace (now + ((now + timedelta_hours 1) / timedelta_hours 1 * timedelta_hours 1 - now))
    with ((now + timedelta_hours 1) / timedelta_hours 1 * timedelta_hours 1) by lia.
  apply Z.mod_mul. lia.
Qed.

(** The wait of the scheduler is never empty, never longer than an hour,
    and ends on a full hour of the clock it read. *)
Theorem wait_until_next_hour_ends_on_the_hour :
  forall (now : Z) (db : Articles.store),
    exists wait_time,
      wait_until_next_hour now db = mk_run [EvSleep wait_time] db (Return tt) /\
      0 < wait_time <= timedelta_hours 1 /\
      (now + wait_time) mod timedelta_hours 1 = 0.
Proof.
  intros now db. unfold wait_until_next_hour, emit.
  eexists. split; [reflexivity|]. apply next_hour_wait.
Qed.

(* ------------------------------------------------------------------------- *)
(** ** Further properties of the strings *)

Lemma lstrip_head (s : string) :
  PyStr.lstrip s = "" \/
  exists c t, PyStr.lstrip s = String c t /\ PyStr.is_space c = false.
Proof.
  induction s as [|c t IH]; cbn; [now left|].
  destruct (PyStr.is_space c) eqn:E; [exact IH|].
  right. now exists c, t.
Qed.

Lemma lstrip_empty (s : string) : PyStr.lstrip s = "" <-> all_space s = true.
Proof.
  unfold all_space. induction s as [|c t IH]; cbn; [tauto|].
  destruct (PyStr.is_space c); cbn; [exact IH|].
  split; discriminate.
Qed.

Lemma rstrip_empty (s : string) : PyStr.rstrip s = "" <-> all_space s = true.
Proof.
  unfold all_space. induction s as [|c t IH]; cbn; [tauto|].
  destruct (PyStr.rstrip t) as [|c' t'].
  - destruct (PyStr.is_space c); cbn; [tauto|]. split; discriminate.
  - split; [discriminate|]. intros H. apply andb_true_iff in H.
    destruct H as (_ & H). apply IH in H. discriminate H.
Qed.

Lemma rstrip_head (c : ascii) (t : string) :
  PyStr.is_space c = false -> exists t', PyStr.rstrip (String c t) = String c t'.
Proof.
  intros E. cbn. destruct (PyStr.rstrip t); [rewrite E|]; eauto.
Qed.

Lemma rstrip_idempotent (s : string) :
  PyStr.rstrip (PyStr.rstrip s) = PyStr.rstrip s.
Proof.
  induction s as [|c t IH]; [reflexivity|]. cbn.
  destruct (PyStr.rstrip t) as [|c' t'] eqn:R.
  - destruct (PyStr.is_space c) eqn:E; [reflexivity|]. cbn. now rewrite E.
  -
    change (PyStr.rstrip (String c (String c' t')))
      with (match PyStr.rstrip (String c' t') with
            | EmptyString =>
                if PyStr.is_space c then EmptyString else String c EmptyString
            | x => String c x
            end).
    now rewrite IH.
Qed.

Lemma strip_blank (s : string) : PyStr.strip s = "" <-> all_space s = true.
Proof.
  unfold PyStr.strip. rewrite rstrip_empty.
  destruct (lstrip_head s) as [E|(c & t & E & Hc)].
  - rewrite E. pose proof (proj1 (lstrip_empty s) E). cbn. tauto.
  - rewrite E. unfold all_space at 1. cbn. rewrite Hc. cbn.
    split; [discriminate|]. intros A. apply lstrip_empty in A. congruence.
Qed.

(** Stripping twice is stripping once: what [strip] returns has no
    whitespace at either end. *)
Lemma strip_idempotent (s : string) :
  PyStr.strip (PyStr.strip s) = PyStr.strip s.
Proof.
  assert (L : PyStr.lstrip (PyStr.strip s) = PyStr.strip s).
  { unfold PyStr.strip. destruct (lstrip_head s) as [E|(c & t & E & Hc)].
    - rewrite E. reflexivity.
    - rewrite E. destruct (rstrip_head c t Hc) as (t' & R). rewrite R.
      cbn [PyStr.lstrip]. now rewrite Hc. }
  change (PyStr.strip (PyStr.strip s))
    with (PyStr.rstrip (PyStr.lstrip (PyStr.strip s))).
  rewrite L. unfold PyStr.strip. apply rstrip_idempotent.
Qed.

Lemma all_chars_lstrip p (s : string) :
  all_chars p s = true -> all_chars p (PyStr.lstrip s) = true.
Proof.
  induction s as [|c t IH]; cbn; [auto|].
  intros H. destruct (PyStr.is_space c); [|exact H].
  apply andb_true_iff in H. tauto.
Qed.

Lemma all_chars_rstrip p (s : string) :
  all_chars p s = true -> all_chars p (PyStr.rstrip s) = true.
Proof.
  induction s as [|c t IH]; cbn; [auto|].
  intros H. apply andb_true_iff in H. destruct H as (Hc & Ht).
  specialize (IH Ht). destruct (PyStr.rstrip t) as [|c' t'].
  - destruct (PyStr.is_space c); cbn; [reflexivity|]. now rewrite Hc.
  - change (all_chars p (String c (String c' t')))
      with (p c && all_chars p (String c' t')).
    now rewrite Hc, IH.
Qed.

Lemma all_chars_strip p (s : string) :
  all_chars p s = true -> all_chars p (PyStr.strip s) = true.
Proof. intros H. now apply all_chars_rstrip, all_chars_lstrip. Qed.

Lemma prefix_cons (c : ascii) (s t : string) :
  String.prefix (String c s) (String c t) = String.prefix s t.
Proof.
  unfold String.prefix; fold String.prefix.
  destruct (Ascii.ascii_dec c c) as [_|N]; [reflexivity|now elim N].
Qed.

Lemma take_spec (n : nat) (s : string) :
  String.prefix (PyStr.take n s) s = true /\
  String.length (PyStr.take n s) = Nat.min n (String.length s).
Proof.
  unfold PyStr.take. revert s. induction n as [|n IH]; intros s.
  - destruct s; split; reflexivity.
  - destruct s as [|c t]; [split; reflexivity|].
    destruct (IH t) as (P & L).
    change (substring 0 (S n) (String c t)) with (String c (substring 0 n t)).
    rewrite prefix_cons. split; [exact P|]. cbn. now rewrite L.
Qed.

(** The relevance classifier is sent the beginning of the text, 3000
    characters of it at most, and the whole text when it is not longer. *)
Theorem filter_article_excerpt :
  forall (o : reply) (cleaned_text lnk : string) (db : Articles.store),
    exists excerpt,
      trace (filter_article o cleaned_text lnk db) = [EvRelevance excerpt lnk] /\
      String.prefix excerpt cleaned_text = true /\
      String.length excerpt = Nat.min 3000 (String.length cleaned_text) /\
      ((String.length cleaned_text <= 3000)%nat -> excerpt = cleaned_text).
Proof.
  intros o text lnk db. rewrite filter_article_run. cbn [trace].
  exists (PyStr.take excerpt_length text).
  destruct (take_spec excerpt_length text) as (P & L).
  split; [reflexivity|]. split; [exact P|]. split; [exact L|].
  intros Hle. fold excerpt_length in Hle.
  assert (E : String.length (PyStr.take excerpt_length text) = String.length text)
    by (rewrite L; lia).
  clear L Hle. revert E P. generalize (PyStr.take excerpt_length text).
  intros e. revert text. induction e as [|c e IH]; intros [|c' t]; cbn;
    try discriminate; [reflexivity|].
  intros E. unfold String.prefix; fold String.prefix.
  destruct (Ascii.ascii_dec c c') as [->|]; [|discriminate].
  intros P. f_equal. apply IH; [now injection E|exact P].
Qed.

(** The generator calls the service exactly when the text is not made of
    whitespace only; it never raises and never touches the table; and a post
    it returns has no whitespace at either end. *)
Theorem generate_content_blank_guard :
  forall (o : reply) (cleaned_text lnk : string) (db : Articles.store),
    let r := generate_content o cleaned_text lnk db in
    db_after r = db /\
    (exists v, outcome r = Return v /\
               (forall post, v = Some post -> PyStr.strip post = post) /\
               (all_space cleaned_text = true -> v = None)) /\
    trace r = (if all_space cleaned_text then []
               else [EvGenerate cleaned_text lnk]).
Proof.
  intros o text lnk db r. subst r. unfold generate_content.
  destruct (all_space text) eqn:A.
  - apply strip_blank in A. rewrite A. cbn. repeat split.
    exists None. repeat split. discriminate.
  - assert (T : PyStr.truthy (PyStr.strip text) = true).
    { destruct (PyStr.strip text) eqn:S; [|reflexivity].
      apply strip_blank in S. congruence. }
    rewrite T. cbn [negb]. unfold bind, emit, ret, prepend.
    destruct o as [content|]; cbn; repeat split.
    + exists (Some (PyStr.strip content)). repeat split; [|discriminate].
      intros post H. injection H as <-. apply strip_idempotent.
    + exists None. repeat split; discriminate.
Qed.

(* ------------------------------------------------------------------------- *)
(** ** The text that [parse_html] returns *)

Lemma linebreak_is_space (c : ascii) :
  Lines.is_linebreak c = true -> PyStr.is_space c = true.
Proof.
  destruct c as [[] [] [] [] [] [] [] []]; vm_compute; intros H;
    first [reflexivity | discriminate H].
Qed.

Lemma lf_is_linebreak (c : ascii) :
  Lines.is_lf c = true -> Lines.is_linebreak c = true.
Proof.
  destruct c as [[] [] [] [] [] [] [] []]; vm_compute; intros H;
    first [reflexivity | discriminate H].
Qed.

(** No line that [splitlines] gives holds a line boundary. *)
Lemma lines_from_one_line (after_cr : bool) (s l : string) :
  In l (Lines.lines_from after_cr s) -> one_line l = true.
Proof.
  unfold one_line. revert after_cr l.
  induction s as [|c t IH]; intros af l; cbn; [tauto|].
  destruct (af && Lines.is_lf c); [apply IH|].
  destruct (Lines.is_linebreak c) eqn:B.
  - intros [<-|H]; [reflexivity|]. eapply IH, H.
  - destruct (Lines.lines_from false t) as [|x xs] eqn:E.
    + intros [<-|[]]. cbn. now rewrite B.
    + intros [<-|H].
      * cbn. rewrite B. cbn. apply (IH false). rewrite E. now left.
      * apply (IH false). rewrite E. now right.
Qed.

(** The lines of a text are made of whitespace exactly when the text is. *)
Lemma lines_from_all_space (after_cr : bool) (s : string) :
  (forall l, In l (Lines.lines_from after_cr s) -> all_space l = true)
  <-> all_space s = true.
Proof.
  unfold all_space. revert after_cr.
  induction s as [|c t IH]; intros af; cbn; [tauto|].
  rewrite andb_true_iff.
  destruct (af && Lines.is_lf c) eqn:A.
  - apply andb_true_iff in A. destruct A as (_ & A).
    pose proof (linebreak_is_space c (lf_is_linebreak c A)) as Sc.
    rewrite (IH false). tauto.
  - destruct (Lines.is_linebreak c) eqn:B.
    + pose proof (linebreak_is_space c B) as Sc.
      rewrite <- (IH (Lines.is_cr c)). split.
      * intros H. split; [exact Sc|]. intros l Hl. apply H. now right.
      * intros (_ & H) l [<-|Hl]; [reflexivity|now apply H].
    + rewrite <- (IH false).
      destruct (Lines.lines_from false t) as [|x xs].
      * split.
        -- intros H. specialize (H _ (or_introl eq_refl)). cbn in H.
           rewrite andb_true_r in H. split; [exact H|]. intros l [].
        -- intros (Hc & _) l [<-|[]]. cbn. now rewrite Hc.
      * split.
        -- intros H. pose proof (H _ (or_introl eq_refl)) as H0. cbn in H0.
           apply andb_true_iff in H0. destruct H0 as (Hc & Hx).
           split; [exact Hc|].
           intros l [<-|Hl]; [exact Hx|]. apply H. now right.
        -- intros (Hc & H) l [<-|Hl].
           ++ cbn. rewrite Hc. cbn. apply H. now left.
           ++ apply H. now right.
Qed.

Lemma kept_line_spec (text l : string) :
  In l (Lines.kept_lines text) ->
  l <> "" /\ PyStr.strip l = l /\ one_line l = true.
Proof.
  unfold Lines.kept_lines, Lines.splitlines. intros H.
  apply filter_In in H. destruct H as (H & T).
  apply in_map_iff in H. destruct H as (x & <- & Hx).
  split; [intros E; rewrite E in T; discriminate T|].
  split; [apply strip_idempotent|].
  apply all_chars_strip. eapply lines_from_one_line, Hx.
Qed.

(** Splitting a text made of one line gives that line. *)
Lemma lines_from_single (l : string) :
  l <> "" -> one_line l = true -> Lines.lines_from false l = [l].
Proof.
  unfold one_line. induction l as [|c l IH]; [congruence|].
  intros _ H. cbn in H. apply andb_true_iff in H. destruct H as (Hc & Hl).
  apply negb_true_iff in Hc. cbn. rewrite Hc.
  destruct l as [|c' l']; [reflexivity|].
  rewrite IH; [reflexivity|discriminate|exact Hl].
Qed.

Lemma lines_from_joined (l rest : string) :
  one_line l = true ->
  Lines.lines_from false (l ++ String (ascii_of_N 10) rest)
  = l :: Lines.lines_from false rest.
Proof.
  unfold one_line. induction l as [|c l IH]; intros H.
  - reflexivity.
  - cbn in H. apply andb_true_iff in H. destruct H as (Hc & Hl).
    apply negb_true_iff in Hc.
    change (String c l ++ String (ascii_of_N 10) rest)
      with (String c (l ++ String (ascii_of_N 10) rest)).
    cbn [Lines.lines_from]. cbn [andb]. rewrite Hc, (IH Hl). reflexivity.
Qed.

Lemma splitlines_concat (ls : list string) :
  (forall l, In l ls -> l <> "" /\ one_line l = true) ->
  Lines.splitlines (String.concat (String (ascii_of_N 10) EmptyString) ls) = ls.
Proof.
  unfold Lines.splitlines. induction ls as [|l ls IH]; intros H; [reflexivity|].
  destruct (H l (or_introl eq_refl)) as (Hne & Hl).
  destruct ls as [|l' ls'].
  - cbn [String.concat]. now apply lines_from_single.
  - change (String.concat (String (ascii_of_N 10) "") (l :: l' :: ls'))
      with (l ++ String (ascii_of_N 10)
                   (String.concat (String (ascii_of_N 10) "") (l' :: ls'))).
    rewrite lines_from_joined by exact Hl.
    rewrite IH; [reflexivity|]. intros x Hx. apply H. now right.
Qed.

Lemma kept_lines_fixed (ls : list string) :
  (forall l, In l ls -> l <> "" /\ PyStr.strip l = l) ->
  filter PyStr.truthy (map PyStr.strip ls) = ls.
Proof.
  induction ls as [|l ls IH]; intros K; [reflexivity|].
  cbn [map filter]. destruct (K l (or_introl eq_refl)) as (Hne & Hs).
  rewrite Hs. destruct l as [|c l]; [congruence|]. cbn [PyStr.truthy].
  f_equal. apply IH. intros x Hx. apply K. now right.
Qed.

(** What [parse_html] returns: its lines are the kept lines, none of them
    empty or with whitespace at an end; it is a fixed point of the
    normalisation; and it is empty exactly when the text of the page is
    made of whitespace only. *)
Theorem normalize_lines :
  forall text : string,
    Lines.splitlines (Lines.normalize text) = Lines.kept_lines text /\
    (forall l, In l (Lines.splitlines (Lines.normalize text)) ->
               l <> "" /\ PyStr.strip l = l) /\
    Lines.normalize (Lines.normalize text) = Lines.normalize text /\
    (Lines.normalize text = "" <-> all_space text = true).
Proof.
  intros text.
  assert (S : Lines.splitlines (Lines.normalize text) = Lines.kept_lines text).
  { unfold Lines.normalize. apply splitlines_concat. intros l H.
    destruct (kept_line_spec text l H) as (A & _ & B). auto. }
  assert (K : forall l, In l (Lines.kept_lines text) -> l <> "" /\ PyStr.strip l = l).
  { intros l H. destruct (kept_line_spec text l H) as (A & B & _). auto. }
  split; [exact S|]. split; [rewrite S; exact K|]. split.
  - unfold Lines.normalize at 1. unfold Lines.kept_lines at 1. rewrite S.
    now rewrite (kept_lines_fixed _ K).
  - assert (E : Lines.normalize text = "" <-> Lines.kept_lines text = []).
    { unfold Lines.normalize. split; [|intros ->; reflexivity].
      destruct (Lines.kept_lines text) as [|l ls] eqn:Q; [reflexivity|].
      assert (Hne : l <> "") by (apply K; now left).
      destruct l as [|c l]; [congruence|].
      destruct ls; cbn; discriminate. }
    rewrite E. unfold Lines.kept_lines, Lines.splitlines.
    rewrite <- (lines_from_all_space false text). split.
    + intros H l Hl. apply strip_blank.
      destruct (PyStr.strip l) as [|c s] eqn:Q; [reflexivity|].
      assert (In (String c s)
                (filter PyStr.truthy
                   (map PyStr.strip (Lines.lines_from false text)))).
      { apply filter_In. split; [|reflexivity].
        apply in_map_iff. exists l. auto. }
      rewrite H in H0. destruct H0.
    + intros H.
      destruct (filter PyStr.truthy (map PyStr.strip (Lines.lines_from false text)))
        as [|x xs] eqn:Q; [reflexivity|].
      assert (Hx : In x (x :: xs)) by now left.
      rewrite <- Q in Hx. apply filter_In in Hx. destruct Hx as (Hx & T).
      apply in_map_iff in Hx. destruct Hx as (l & <- & Hl).
      apply H, strip_blank in Hl. rewrite Hl in T. discriminate T.
Qed.

(* ------------------------------------------------------------------------- *)
(** ** The schema of the database file *)

Lemma issubset_refl (cs : list string) : Schema.issubset cs cs = true.
Proof.
  unfold Schema.issubset. apply forallb_forall. intros c H.
  apply existsb_exists. exists c. split; [exact H|apply String.eqb_refl].
Qed.

(** [ensure_database_exists] creates the table with the six columns when the
    file has none, after which the check finds everything in order; it never
    touches a table that exists, so a table that lacks a column still lacks
    it afterwards; and a second call changes nothing. *)
Theorem ensure_database_exists_effect :
  forall s : Schema.schema,
    (s = None ->
     Schema.ensure_database_exists s = Some Schema.required_columns) /\
    (forall columns, s = Some columns -> Schema.ensure_database_exists s = s) /\
    Schema.ensure_database_exists (Schema.ensure_database_exists s)
    = Schema.ensure_database_exists s /\
    (Schema.issubset Schema.required_columns
       (Schema.table_info (Schema.ensure_database_exists s)) = true
     <-> s = None
         \/ Schema.issubset Schema.required_columns (Schema.table_info s) = true).
Proof.
  intros s.
  assert (K : forall cols, Schema.ensure_database_exists (Some cols) = Some cols).
  { intros cols. unfold Schema.ensure_database_exists.
    cbn [Schema.table_info Schema.setup_database].
    destruct (negb (Schema.issubset Schema.required_columns cols)); reflexivity. }
  destruct s as [cols|].
  - rewrite !K. split; [discriminate|]. split; [reflexivity|].
    split; [reflexivity|]. cbn [Schema.table_info].
    split; [auto|]. intros [H|H]; [discriminate H|exact H].
  - assert (N : Schema.ensure_database_exists None = Some Schema.required_columns)
      by reflexivity.
    rewrite N, K. split; [reflexivity|]. split; [discriminate|].
    split; [reflexivity|]. split; [auto|]. intros _. reflexivity.
Qed.

(* ------------------------------------------------------------------------- *)
(** ** One entry, case by case *)

Section OrchestratorMore.

Variable CHANNEL_ID : string.
Variable existing_titles : list string.

Ltac run_tail_at ti photo Ei Hti Hph F k mid FD :=
  lazymatch goal with
  | NL : Articles.has_link ?l ?db = false
    |- context [bind (extract_main_image ?og ?ip) _ ?db] =>
      lazymatch goal with
      | |- context [save_article_to_db ?ifl ?ic l ?ttl ?text] =>
          lazymatch goal with
          | |- context [publish_to_telegram _ ?dl ?post] =>
              let ET := fresh "ET" in
              destruct (publish_and_save_run CHANNEL_ID og ip dl ifl ic l ttl text post db NL)
                as (ti & photo & Ei & Hti & Hph & [[F ET] | (k & mid & FD & ET)]);
              cbv zeta in ET; rewrite ET; clear ET
          end
      end
  end.

(** An entry whose link is stored is stopped by the lookup: no classifier,
    no fetch, no generation, no delivery, the table unchanged; so is an entry
    whose lookup fails, with the failure logged. *)
Theorem stored_link_is_skipped :
  forall (entry : feed_entry) (sc : script) (db : Articles.store),
    Articles.has_link (entry_link entry) db = true ->
    let r := process_entry_guarded CHANNEL_ID existing_titles (entry, sc) db in
    db_after r = db /\ outcome r = Return tt /\
    trace r = EvSelectLink (entry_link entry)
                :: match select_fault sc with
                   | Some e => [EvEntryError (entry_link entry) e]
                   | None => []
                   end.
Proof.
  intros entry sc db H r. subst r. rewrite process_entry_guarded_run. cbv zeta.
  destruct sc as [sf nr pg ps rr sr og ip dl ifl ic], entry as [lnk ttl].
  cbn [entry_link entry_title select_fault trace db_after outcome] in *.
  focus_entry P. unfold_entry. repeat step; read_run; auto.
Qed.

Lemma first_delivered_unique (outcomes : nat -> delivery) k k' mid mid' :
  first_delivered outcomes k mid -> first_delivered outcomes k' mid' ->
  k = k' /\ mid = mid'.
Proof.
  intros (Hk & D & F) (Hk' & D' & F').
  assert (k = k').
  { destruct (Nat.lt_trichotomy k k') as [L|[E|L]]; [|exact E|].
    - rewrite (F' k L) in D. discriminate D.
    - rewrite (F k' L) in D'. discriminate D'. }
  subst k'. split; [reflexivity|]. rewrite D in D'. now injection D'.
Qed.

(** An entry that every stage accepts, on a table that does not hold its
    link, adds one row: the entry's link and title, the extracted text, the
    link of the delivered message; the table then holds exactly one row for
    the link and still satisfies the constraint. *)
Theorem accepted_entry_is_recorded :
  forall (entry : feed_entry) (sc : script) (db : Articles.store)
         (html text summary : string) (k : nat) (message_id : N),
    Articles.unique_links db ->
    select_fault sc = None ->
    Articles.has_link (entry_link entry) db = false ->
    says_yes (novelty_reply sc) = false ->
    page sc = Response html ->
    parse sc = Parsed text ->
    all_space text = false ->
    says_yes (relevance_reply sc) = true ->
    summary_reply sc = Reply summary ->
    all_space summary = false ->
    first_delivered (deliveries sc) k message_id ->
    insert_fault sc = None ->
    let r := process_entry_guarded CHANNEL_ID existing_titles (entry, sc) db in
    db_after r =
    (db ++ [new_row db (insert_clock sc) (entry_link entry) (entry_title entry)
              text (telegram_message_link CHANNEL_ID message_id)])%list /\
    count_link (entry_link entry) (db_after r) = 1%nat /\
    Articles.unique_links (db_after r) /\
    PyStr.truthy (telegram_message_link CHANNEL_ID message_id) = true.
Proof.
  intros entry sc db html text summary k mid U SF NL NY PG PS TX RY SR SM FD IF r.
  assert (D : db_after r =
              (db ++ [new_row db (insert_clock sc) (entry_link entry)
                        (entry_title entry) text
                        (telegram_message_link CHANNEL_ID mid)])%list).
  { subst r. rewrite process_entry_guarded_run. cbv zeta.
    destruct sc as [sf nr pg ps rr sr og ip dl ifl ic], entry as [lnk ttl].
    cbn [entry_link entry_title select_fault novelty_reply page parse
         relevance_reply summary_reply deliveries insert_fault insert_clock
         trace db_after outcome] in *.
    subst sf pg ps sr ifl.
    assert (T1 : negb (PyStr.truthy (PyStr.strip text)) = false).
    { destruct (PyStr.strip text) eqn:S; [|reflexivity].
      apply strip_blank in S. congruence. }
    assert (T2 : negb (PyStr.truthy (PyStr.strip summary)) = false).
    { destruct (PyStr.strip summary) eqn:S; [|reflexivity].
      apply strip_blank in S. congruence. }
    destruct rr as [rc|]; [|discriminate RY]. cbn [says_yes] in RY.
    focus_entry P. unfold_entry.
    destruct nr as [nc|]; cbn [says_yes] in NY; repeat step.
    all: run_tail_at ti photo Ei Hti Hph F k' mid' FD'.
    all: try (destruct FD as (Hk & Dk & _); rewrite (F k Hk) in Dk; discriminate Dk).
    all: destruct (first_delivered_unique _ _ _ _ _ FD FD') as (<- & <-).
    all: read_run; reflexivity. }
  split; [exact D|].
  assert (U' : Articles.unique_links (db_after r)).
  { rewrite D. unfold new_row.
    pose proof (save_article_to_db_unique None (insert_clock sc) (entry_link entry)
                  (entry_title entry) text
                  (Some (telegram_message_link CHANNEL_ID mid)) db U) as U2.
    rewrite save_article_to_db_run, NL in U2. exact U2. }
  split; [|split; [exact U'|apply telegram_message_link_truthy]].
  apply count_link_stored; [exact U'|].
  rewrite D, has_link_app. unfold new_row, Articles.has_link at 2. cbn.
  rewrite String.eqb_refl. now rewrite orb_true_r.
Qed.

(** The novelty classifier answers yes exactly on a reply that is, once
    trimmed, a spelling of the affirmative token; on that answer the entry
    ends after the classifier call, with nothing fetched and nothing stored. *)
Theorem novelty_yes_stops_the_entry :
  forall (entry : feed_entry) (sc : script) (db : Articles.store),
    (forall t ts d,
       outcome (is_title_similar_with_chatgpt (novelty_reply sc) t ts d)
       = Return (Some true)
       <-> exists content, novelty_reply sc = Reply content /\
                           In (PyStr.strip content) yes_spellings) /\
    (select_fault sc = None ->
     Articles.has_link (entry_link entry) db = false ->
     says_yes (novelty_reply sc) = true ->
     process_entry_guarded CHANNEL_ID existing_titles (entry, sc) db =
     mk_run [EvSelectLink (entry_link entry);
             EvNovelty (entry_title entry) existing_titles] db (Return tt)).
Proof.
  intros entry sc db. split.
  - intros t ts d. rewrite is_title_similar_run. cbn [outcome].
    destruct (novelty_reply sc) as [content|].
    + split.
      * intros H. injection H as H. apply eqb_yes_spec in H. eauto.
      * intros (c & E & H). injection E as <-. apply eqb_yes_spec in H.
        now rewrite H.
    + split; [discriminate|]. intros (c & E & _). discriminate E.
  - intros SF NL NY. rewrite process_entry_guarded_run. cbv zeta.
    destruct sc as [sf nr pg ps rr sr og ip dl ifl ic], entry as [lnk ttl].
    cbn [entry_link entry_title select_fault novelty_reply trace db_after outcome] in *.
    destruct nr as [nc|]; [|discriminate NY]. cbn [says_yes] in NY.
    focus_entry P. unfold_entry. repeat step. read_run. reflexivity.
Qed.

Lemma failed_attempts_entry_events ttl ts (post : string) (photo : option string)
    (n : nat) :
  Forall (entry_event ttl ts) (failed_attempts (send post photo) n).
Proof.
  unfold failed_attempts. induction n as [|n IH]; cbn; [constructor|].
  constructor; [unfold send; destruct (truthy_opt photo); exact I|].
  constructor; [exact I|exact IH].
Qed.

(** The trace of an entry opens with the lookup of its link and holds no
    other lookup; the novelty call in it, if any, is for the entry's title
    and the titles given to the loop. *)
Lemma process_entry_guarded_front (entry : feed_entry) (sc : script)
    (db : Articles.store) :
  exists rest,
    trace (process_entry_guarded CHANNEL_ID existing_titles (entry, sc) db)
    = EvSelectLink (entry_link entry) :: rest /\
    Forall (entry_event (entry_title entry) existing_titles) rest.
Proof.
  rewrite process_entry_guarded_run. cbv zeta.
  destruct sc as [sf nr pg ps rr sr og ip dl ifl ic], entry as [lnk ttl].
  cbn [entry_link entry_title trace db_after outcome].
  focus_entry P. unfold_entry. repeat step.
  all: try (read_run; eexists; split; [reflexivity|];
            repeat constructor; fail).
  all: run_tail_at ti photo Ei Hti Hph F k mid FD.
  all: read_run; eexists; (split; [reflexivity|]).
  all: repeat (apply Forall_cons; [cbn; auto|]).
  all: repeat (apply Forall_app; split).
  all: try apply failed_attempts_entry_events.
  all: try (apply Forall_forall; intros ev Hev;
            destruct (Hti ev Hev) as [u ->]; exact I).
  all: try (repeat constructor; unfold send; destruct (truthy_opt photo); exact I).
  all: destruct ifl as [[]|]; repeat constructor.
Qed.

End OrchestratorMore.

(* ------------------------------------------------------------------------- *)
(** ** The feed loop and the cycle *)

Section FeedLoop.

Variable CHANNEL_ID : string.

Lemma process_entry_guarded_returns ts (es : feed_entry * script)
    (db : Articles.store) :
  outcome (process_entry_guarded CHANNEL_ID ts es db) = Return tt.
Proof. destruct es. now rewrite process_entry_guarded_run. Qed.

Lemma for_each_cons_run {A} (body : A -> M unit) (x : A) (xs : list A)
    (db : Articles.store) :
  outcome (body x db) = Return tt ->
  for_each (x :: xs) body db =
  prepend (trace (body x db)) (for_each xs body (db_after (body x db))).
Proof.
  intros H. cbn [for_each]. unfold bind.
  destruct (body x db) as [t d o]. cbn in H. subst o. reflexivity.
Qed.

(** What one entry does to the table: nothing, or one row more, for a link
    that was not stored. *)
Lemma process_entry_guarded_store ts (es : feed_entry * script)
    (db : Articles.store) :
  let r := process_entry_guarded CHANNEL_ID ts es db in
  db_after r = db \/
  (Articles.has_link (entry_link (fst es)) db = false /\
   exists now text tl,
     PyStr.truthy tl = true /\
     db_after r = (db ++ [new_row db now (entry_link (fst es))
                            (entry_title (fst es)) text tl])%list).
Proof.
  destruct es as [entry sc]. intros r. cbn [fst].
  destruct (process_entry_guarded_cases CHANNEL_ID ts entry sc db) as (_ & C).
  fold r in C.
  destruct C as [(D & _) | [(pre & photo & post & _ & _ & _ & _ & D)
                           | (pre & photo & post & k & mid & text & _ & NL & _ & _ & _ & D)]];
    [now left|now left|].
  destruct (insert_fault sc); [now left|]. right. split; [exact NL|].
  exists (insert_clock sc), text, (telegram_message_link CHANNEL_ID mid).
  split; [apply telegram_message_link_truthy|exact D].
Qed.

Lemma unique_links_new_row (db : Articles.store) now lnk ttl text tl :
  Articles.unique_links db -> Articles.has_link lnk db = false ->
  Articles.unique_links (db ++ [new_row db now lnk ttl text tl]).
Proof.
  intros U NL.
  pose proof (save_article_to_db_unique None now lnk ttl text (Some tl) db U) as U2.
  rewrite save_article_to_db_run, NL in U2. exact U2.
Qed.

Lemma filter_lookup_entry_events ttl ts (rest : list event) :
  Forall (entry_event ttl ts) rest -> filter is_lookup rest = [].
Proof.
  induction 1 as [|ev rest H _ IH]; [reflexivity|].
  cbn. rewrite IH. destruct ev; cbn in *; tauto.
Qed.

(** The loop over the entries of a feed. *)
Lemma entries_loop ts (entries : list (feed_entry * script)) (db : Articles.store) :
  let r := for_each entries (process_entry_guarded CHANNEL_ID ts) db in
  outcome r = Return tt /\
  filter is_lookup (trace r)
  = map (fun es => EvSelectLink (entry_link (fst es))) entries /\
  (forall t ts', In (EvNovelty t ts') (trace r) -> ts' = ts) /\
  (Articles.unique_links db -> Articles.unique_links (db_after r)) /\
  exists added,
    db_after r = (db ++ added)%list /\
    forall row, In row added ->
      (exists es, In es entries /\
                  Articles.link row = entry_link (fst es) /\
                  Articles.title row = entry_title (fst es)) /\
      exists tl, Articles.telegram_link row = Some tl /\ PyStr.truthy tl = true.
Proof.
  revert db. induction entries as [|es entries IH]; intros db r; subst r.
  - cbn. split; [reflexivity|]. split; [reflexivity|].
    split; [intros t ts' []|]. split; [auto|].
    exists []. split; [now rewrite app_nil_r|]. intros row [].
  - rewrite for_each_cons_run by apply process_entry_guarded_returns.
    set (r1 := process_entry_guarded CHANNEL_ID ts es db).
    destruct (IH (db_after r1)) as (O & L & N & U & added & D & R).
    unfold prepend. cbn [trace db_after outcome].
    destruct es as [entry sc].
    destruct (process_entry_guarded_front CHANNEL_ID ts entry sc db)
      as (rest & T & F).
    fold r1 in T.
    split; [exact O|]. split; [|split; [|split]].
    + rewrite filter_app, L, T. cbn.
      now rewrite (filter_lookup_entry_events _ _ _ F).
    + intros t ts' H. apply in_app_or in H. destruct H as [H|H]; [|eapply N, H].
      rewrite T in H. destruct H as [H|H]; [discriminate H|].
      rewrite Forall_forall in F. apply (F _ H).
    + intros U0. apply U.
      destruct (process_entry_guarded_store ts (entry, sc) db)
        as [E|(NL & now & text & tl & _ & E)]; fold r1 in E; rewrite E;
        [exact U0|]. now apply unique_links_new_row.
    + destruct (process_entry_guarded_store ts (entry, sc) db)
        as [E|(NL & now & text & tl & Tl & E)]; fold r1 in E.
      * exists added. split; [now rewrite D, E|].
        intros row H. destruct (R row H) as ((es & He & Hl) & Ht).
        split; [exists es; split; [now right|exact Hl]|exact Ht].
      * exists (new_row db now (entry_link entry) (entry_title entry) text tl
                  :: added).
        split; [rewrite D, E, <- app_assoc; reflexivity|].
        intros row [<-|H].
        -- split; [exists (entry, sc); split; [now left|split; reflexivity]|].
           exists tl. split; [reflexivity|exact Tl].
        -- destruct (R row H) as ((es & He & Hl) & Ht).
           split; [exists es; split; [now right|exact Hl]|exact Ht].
Qed.

Lemma process_rss_feed_run (poll : feed_poll) (db : Articles.store) :
  process_rss_feed CHANNEL_ID poll db =
  match titles_fault poll with
  | Some e => mk_run [EvParseFeed (feed_url poll); EvSelectTitles] db (Raise e)
  | None =>
      let r := for_each (entries poll)
                 (process_entry_guarded CHANNEL_ID (Articles.select_recent_titles db))
                 db in
      mk_run (EvParseFeed (feed_url poll) :: EvSelectTitles :: trace r)
        (db_after r) (outcome r)
  end.
Proof.
  unfold process_rss_feed, bind, emit, raise, get_db, ret, prepend.
  cbn [trace db_after outcome].
  destruct (titles_fault poll); cbn [trace db_after outcome app]; reflexivity.
Qed.


(** The titles that the novelty check compares with are read once, before
    the first entry: every novelty call of a feed gets the titles of the
    table as it was when the feed was opened, also after entries of the
    same feed have been stored. *)
Theorem process_rss_feed_titles_snapshot :
  forall (poll : feed_poll) (db : Articles.store) (t : string) (ts : list string),
    In (EvNovelty t ts) (trace (process_rss_feed CHANNEL_ID poll db)) ->
    ts = Articles.select_recent_titles db.
Proof.
  intros poll db t ts. rewrite process_rss_feed_run.
  destruct (titles_fault poll).
  - cbn. intros [H|[H|[]]]; discriminate H.
  - cbv zeta. cbn [trace].
    destruct (entries_loop (Articles.select_recent_titles db) (entries poll) db)
      as (_ & _ & N & _).
    intros [H|[H|H]]; [discriminate H|discriminate H|eapply N, H].
Qed.

(** A feed only adds rows: the rows stored before are kept, unchanged and
    in place; each row added carries the link and the title of an entry of
    the feed and the link of a message, not empty; and the constraint on
    the links is kept. *)
Theorem process_rss_feed_only_appends :
  forall (poll : feed_poll) (db : Articles.store),
    let r := process_rss_feed CHANNEL_ID poll db in
    (Articles.unique_links db -> Articles.unique_links (db_after r)) /\
    exists added,
      db_after r = (db ++ added)%list /\
      forall row, In row added ->
        (exists es, In es (entries poll) /\
                    Articles.link row = entry_link (fst es) /\
                    Articles.title row = entry_title (fst es)) /\
        exists tl, Articles.telegram_link row = Some tl /\ PyStr.truthy tl = true.
Proof.
  intros poll db r. subst r. rewrite process_rss_feed_run.
  destruct (titles_fault poll).
  - cbn [db_after]. split; [auto|]. exists []. split; [now rewrite app_nil_r|].
    intros row [].
  - cbv zeta. cbn [db_after].
    destruct (entries_loop (Articles.select_recent_titles db) (entries poll) db)
      as (_ & _ & _ & U & A). auto.
Qed.

Lemma process_rss_feed_returns (p : feed_poll) (db : Articles.store) :
  titles_fault p = None ->
  outcome (process_rss_feed CHANNEL_ID p db) = Return tt.
Proof.
  intros TF. rewrite process_rss_feed_run, TF. cbv zeta. cbn [outcome].
  apply entries_loop.
Qed.

Lemma feeds_stop_at_failure (before after : list feed_poll) (poll : feed_poll)
    (e : exn) (db : Articles.store) :
  (forall p, In p before -> titles_fault p = None) ->
  titles_fault poll = Some e ->
  for_each (before ++ poll :: after) (process_rss_feed CHANNEL_ID) db =
  mk_run (trace (for_each before (process_rss_feed CHANNEL_ID) db)
          ++ [EvParseFeed (feed_url poll); EvSelectTitles])
    (db_after (for_each before (process_rss_feed CHANNEL_ID) db)) (Raise e).
Proof.
  intros B TF. revert db. induction before as [|p before IH]; intros db.
  - cbn [app for_each trace db_after].
    assert (R : process_rss_feed CHANNEL_ID poll db
                = mk_run [EvParseFeed (feed_url poll); EvSelectTitles] db (Raise e))
      by (now rewrite process_rss_feed_run, TF).
    now rewrite (bind_run_raise _ _ _ _ _ _ R).
  - cbn [app].
    pose proof (process_rss_feed_returns p db (B p (or_introl eq_refl))) as Op.
    rewrite !for_each_cons_run by exact Op.
    rewrite IH by (intros q H; apply B; now right).
    unfold prepend. cbn [trace db_after outcome]. now rewrite app_assoc.
Qed.

(** An exception of a feed outside its entry loop, here the reading of the
    recent titles, ends the turn of the main loop there: the feeds that
    follow are not polled, the eviction is not run, nothing is waited for,
    and the table is as the feeds before left it. *)
Theorem feed_failure_ends_the_cycle :
  forall (c : cycle) (before after : list feed_poll) (poll : feed_poll)
         (e : exn) (db : Articles.store),
    polls c = (before ++ poll :: after)%list ->
    (forall p, In p before -> titles_fault p = None) ->
    titles_fault poll = Some e ->
    let feeds := for_each before (process_rss_feed CHANNEL_ID) db in
    main_cycle CHANNEL_ID c db =
    mk_run (trace feeds ++ [EvParseFeed (feed_url poll); EvSelectTitles;
                            EvMainLoopError e])
      (db_after feeds) (Return tt).
Proof.
  intros c before after poll e db P B TF feeds. subst feeds.
  unfold main_cycle, try_except, any_exception. rewrite P.
  rewrite (bind_run_raise _ _ _ _ _ _
             (feeds_stop_at_failure before after poll e db B TF)).
  unfold emit, prepend. cbn [trace db_after outcome].
  now rewrite <- app_assoc.
Qed.

Lemma process_rss_feed_unique (poll : feed_poll) (db : Articles.store) :
  Articles.unique_links db ->
  Articles.unique_links (db_after (process_rss_feed CHANNEL_ID poll db)).
Proof.
  intros U. rewrite process_rss_feed_run. destruct (titles_fault poll); [exact U|].
  cbv zeta. cbn [db_after]. now apply entries_loop.
Qed.



Lemma main_cycle_unique (c : cycle) (db : Articles.store) :
  Articles.unique_links db ->
  Articles.unique_links (db_after (main_cycle CHANNEL_ID c db)).
Proof.
  intros U.
  assert (Uf : forall ps d, Articles.unique_links d ->
               Articles.unique_links
                 (db_after (for_each ps (process_rss_feed CHANNEL_ID) d))).
  { induction ps as [|p ps IH]; intros d Ud; [exact Ud|].
    cbn [for_each]. unfold bind.
    pose proof (process_rss_feed_unique p d Ud) as Up.
    destruct (process_rss_feed CHANNEL_ID p d) as [t d' [[]|e]];
      cbn [db_after] in *; [|exact Up].
    unfold prepend. cbn [db_after]. now apply IH. }
  unfold main_cycle, try_except, any_exception, bind.
  specialize (Uf (polls c) db U).
  destruct (for_each (polls c) (process_rss_feed CHANNEL_ID) db) as [t d [[]|e]];
    cbn [db_after] in Uf.
  - unfold cleanup_old_articles, bind, emit, raise, get_db, put_db, prepend,
      wait_until_next_hour.
    destruct (cleanup_fault c); cbn [trace db_after outcome]; [exact Uf|].
    now apply delete_older_than_unique.
  - unfold emit, prepend. cbn [db_after]. exact Uf.
Qed.

End FeedLoop.

(* ------------------------------------------------------------------------- *)
(** ** What the whole run keeps *)

Section Invariants.

Variable CHANNEL_ID : string.

Lemma published_app (db added : Articles.store) :
  published db -> published added -> published (db ++ added).
Proof.
  intros P Q row H. apply in_app_or in H. destruct H; auto.
Qed.

Lemma process_rss_feed_published (poll : feed_poll) (db : Articles.store) :
  published db -> published (db_after (process_rss_feed CHANNEL_ID poll db)).
Proof.
  intros P. rewrite process_rss_feed_run. destruct (titles_fault poll); [exact P|].
  cbv zeta. cbn [db_after].
  destruct (entries_loop CHANNEL_ID (Articles.select_recent_titles db)
              (entries poll) db) as (_ & _ & _ & _ & added & D & R).
  rewrite D. apply published_app; [exact P|]. intros row H. now apply R.
Qed.

Lemma main_cycle_published (c : cycle) (db : Articles.store) :
  published db -> published (db_after (main_cycle CHANNEL_ID c db)).
Proof.
  intros P.
  assert (Pf : forall ps d, published d ->
               published (db_after (for_each ps (process_rss_feed CHANNEL_ID) d))).
  { induction ps as [|p ps IH]; intros d Pd; [exact Pd|].
    cbn [for_each]. unfold bind.
    pose proof (process_rss_feed_published p d Pd) as Pp.
    destruct (process_rss_feed CHANNEL_ID p d) as [t d' [[]|e]];
      cbn [db_after] in *; [|exact Pp].
    unfold prepend. cbn [db_after]. now apply IH. }
  unfold main_cycle, try_except, any_exception, bind.
  specialize (Pf (polls c) db P).
  destruct (for_each (polls c) (process_rss_feed CHANNEL_ID) db) as [t d [[]|e]];
    cbn [db_after] in Pf.
  - unfold cleanup_old_articles, bind, emit, raise, get_db, put_db, prepend,
      wait_until_next_hour.
    destruct (cleanup_fault c); cbn [trace db_after outcome]; [exact Pf|].
    intros row H. apply filter_In in H. apply Pf. tauto.
  - unfold emit, prepend. cbn [db_after]. exact Pf.
Qed.

(** Through any number of turns of the main loop, whatever is raised in
    them, the table keeps one row per link at most and every row keeps the
    link of the message published for it. *)
Theorem main_keeps_the_table_sound :
  forall (start_clock : Z) (cycles : list cycle) (db : Articles.store),
    Articles.unique_links db ->
    published db ->
    let r := main CHANNEL_ID start_clock cycles db in
    Articles.unique_links (db_after r) /\ published (db_after r).
Proof.
  intros start cycles db U P r. subst r.
  unfold main, wait_until_next_hour, bind, emit, prepend.
  cbn [trace db_after outcome].
  revert db U P. induction cycles as [|c cycles IH]; intros db U P; [auto|].
  cbn [for_each]. unfold bind.
  pose proof (main_cycle_unique CHANNEL_ID c db U) as Uc.
  pose proof (main_cycle_published c db P) as Pc.
  pose proof (main_cycle_returns CHANNEL_ID c db) as Oc.
  destruct (main_cycle CHANNEL_ID c db) as [t d o]. cbn in Uc, Pc, Oc. subst o.
  unfold prepend. cbn [db_after]. now apply IH.
Qed.

End Invariants.

(* ------------------------------------------------------------------------- *)
(** ** The properties on the sample executions *)

(** The scenario of the specification: the accepted entry, on an empty
    table, is delivered as a text message and stored with its link. *)
Example accepted_entry_is_stored :
  process_entry_guarded Sample.channel [] (Sample.entry, Sample.accepted) [] =
  mk_run
    [EvSelectLink "https://a/1"; EvNovelty "X launches Y" [];
     EvFetch "https://a/1"; EvExtract "<html>X launches Y</html>";
     EvRelevance "X launches Y" "https://a/1";
     EvGenerate "X launches Y" "https://a/1";
     EvSendMessage "X has launched Y."; EvInsert "https://a/1"]
    [Sample.stored] (Return tt).
Proof. vm_compute. reflexivity. Qed.

(** The same entry presented again is stopped by the link check. *)
Example stored_entry_is_skipped :
  process_entry_guarded Sample.channel [] (Sample.entry, Sample.accepted)
    [Sample.stored] =
  mk_run [EvSelectLink "https://a/1"] [Sample.stored] (Return tt).
Proof. vm_compute. reflexivity. Qed.

(** C1, on the code: the novelty call of the entry fails, and the entry is
    fetched, extracted, classified, summarised, delivered and stored all the
    same. *)
Theorem novelty_failure_entry_is_published :
  is_title_similar_with_chatgpt (novelty_reply Sample.novelty_down)
    "X launches Y" [] [] = mk_run [EvNovelty "X launches Y" []] [] (Return None) /\
  process_entry_guarded Sample.channel [] (Sample.entry, Sample.novelty_down) [] =
  mk_run
    [EvSelectLink "https://a/1"; EvNovelty "X launches Y" [];
     EvFetch "https://a/1"; EvExtract "<html>X launches Y</html>";
     EvRelevance "X launches Y" "https://a/1";
     EvGenerate "X launches Y" "https://a/1";
     EvSendMessage "X has launched Y."; EvInsert "https://a/1"]
    [Sample.stored] (Return tt).
Proof. split; vm_compute; reflexivity. Qed.

(** C2, as stated, fails: the extraction times out, the text is empty, and
    the relevance classifier is called with it. *)
Lemma empty_text_is_classified :
  outcome (clean_html (parse Sample.extraction_timeout) "<html>X launches Y</html>" [])
  = Return "" /\
  trace (process_entry_guarded Sample.channel []
           (Sample.entry, Sample.extraction_timeout) []) =
  [EvSelectLink "https://a/1"; EvNovelty "X launches Y" [];
   EvFetch "https://a/1"; EvExtract "<html>X launches Y</html>";
   EvRelevance "" "https://a/1"].
Proof. split; vm_compute; reflexivity. Qed.

Lemma empty_text_reaches_relevance_check_witness :
  (forall html d,
     outcome (clean_html (parse Sample.extraction_timeout) html d) = Return "") /\
  let r := process_entry_guarded Sample.channel []
             (Sample.entry, Sample.extraction_timeout) [] in
  db_after r = [] /\ outcome r = Return tt /\
  forallb (fun ev => negb (after_relevance ev)) (trace r) = true /\
  (forall html, In (EvExtract html) (trace r) ->
                In (EvRelevance "" "https://a/1") (trace r)).
Proof.
  assert (H : forall html d,
            outcome (clean_html (parse Sample.extraction_timeout) html d) = Return "")
    by (intros; reflexivity).
  split; [exact H|].
  exact (empty_text_reaches_relevance_check Sample.channel [] Sample.entry
           Sample.extraction_timeout [] H).
Defined.

Lemma record_only_after_publication_witness :
  (forall k, (k < 3)%nat -> deliveries Sample.undeliverable k = DeliveryFailed) /\
  db_after (process_entry_guarded Sample.channel []
              (Sample.entry, Sample.undeliverable) []) = [] /\
  In Sample.stored
    (db_after (process_entry_guarded Sample.channel []
                 (Sample.entry, Sample.accepted) [])) /\
  ~ In Sample.stored [] /\
  Articles.link Sample.stored = "https://a/1" /\
  exists k message_id,
    first_delivered (deliveries Sample.accepted) k message_id /\
    Articles.telegram_link Sample.stored
    = Some (telegram_message_link Sample.channel message_id).
Proof.
  assert (F : forall k, (k < 3)%nat ->
                        deliveries Sample.undeliverable k = DeliveryFailed)
    by (intros; reflexivity).
  assert (S : In Sample.stored
                (db_after (process_entry_guarded Sample.channel []
                             (Sample.entry, Sample.accepted) [])))
    by (vm_compute; tauto).
  assert (N : ~ In Sample.stored []) by (simpl; tauto).
  split; [exact F|]. split.
  - exact (proj1 (record_only_after_publication Sample.channel [] Sample.entry
                    Sample.undeliverable []) F).
  - split; [exact S|]. split; [exact N|].
    destruct (proj2 (record_only_after_publication Sample.channel [] Sample.entry
                       Sample.accepted []) Sample.stored S N)
      as (L & k & message_id & _ & _ & FD & T & _).
    split; [exact L|]. exists k, message_id. split; assumption.
Defined.

Lemma filter_article_tristate_witness :
  relevance_reply Sample.accepted = Reply "Yes" /\
  In (PyStr.strip "Yes") yes_spellings /\
  outcome (filter_article (relevance_reply Sample.accepted) "X launches Y"
             "https://a/1" []) = Return (Some true) /\
  outcome (filter_article (relevance_reply Sample.undecided) "X launches Y"
             "https://a/1" []) <> Return (Some true) /\
  let r := process_entry_guarded Sample.channel []
             (Sample.entry, Sample.undecided) [] in
  db_after r = [] /\ outcome r = Return tt /\
  forallb (fun ev => negb (after_relevance ev)) (trace r) = true.
Proof.
  assert (V : outcome (filter_article (relevance_reply Sample.undecided)
                         "X launches Y" (entry_link Sample.entry) [])
              <> Return (Some true))
    by (vm_compute; discriminate).
  assert (Y : In (PyStr.strip "Yes") yes_spellings) by (vm_compute; tauto).
  split; [reflexivity|]. split; [exact Y|]. split.
  - exact (proj1 (filter_article_tristate Sample.channel [] Sample.entry
                    Sample.accepted [] "X launches Y") "Yes" eq_refl Y).
  - split; [exact V|].
    exact (proj2 (proj2 (proj2 (filter_article_tristate Sample.channel []
                                  Sample.entry Sample.undecided []
                                  "X launches Y"))) V).
Defined.

Lemma publish_to_telegram_retries_witness :
  (forall k, (k < 3)%nat -> Sample.always DeliveryFailed k = DeliveryFailed) /\
  first_delivered Sample.second_attempt 1 43 /\
  publish_to_telegram Sample.channel (Sample.always DeliveryFailed) "post" None [] =
  mk_run [EvSendMessage "post"; EvSleep (seconds 5); EvSendMessage "post";
          EvSleep (seconds 5); EvSendMessage "post"; EvSleep (seconds 5)]
    [] (Return None) /\
  publish_to_telegram Sample.channel Sample.second_attempt "post" None [] =
  mk_run [EvSendMessage "post"; EvSleep (seconds 5); EvSendMessage "post"]
    [] (Return (Some "https://t.me/1001234/43")).
Proof.
  assert (F : forall k, (k < 3)%nat -> Sample.always DeliveryFailed k = DeliveryFailed)
    by (intros; reflexivity).
  assert (D : first_delivered Sample.second_attempt 1 43).
  { split; [lia|]. split; [reflexivity|].
    intros j Hj. assert (j = 0%nat) by lia. subst j. reflexivity. }
  split; [exact F|]. split; [exact D|]. split.
  - exact (proj1 (publish_to_telegram_retries Sample.channel
                    (Sample.always DeliveryFailed) "post" None []) F).
  - destruct (proj2 (publish_to_telegram_retries Sample.channel
                       Sample.second_attempt "post" None []) 1%nat 43%N D)
      as (T & _ & B & O).
    destruct (publish_to_telegram Sample.channel Sample.second_attempt "post" None [])
      as [t d o].
    simpl in T, B, O. subst t d o. reflexivity.
Defined.

Lemma save_article_to_db_existing_link_witness :
  Articles.unique_links [Sample.stored] /\
  Articles.has_link "https://a/1" [Sample.stored] = true /\
  let r := save_article_to_db None 1700003600000000 "https://a/1" "X launches Y"
             "Y was launched" (Some "https://t.me/1001234/57") [Sample.stored] in
  outcome r = Return tt /\ db_after r = [Sample.stored] /\
  count_link "https://a/1" (db_after r) = 1%nat.
Proof.
  assert (U : Articles.unique_links [Sample.stored]).
  { unfold Articles.unique_links. simpl. constructor; [simpl; tauto|constructor]. }
  assert (H : Articles.has_link "https://a/1" [Sample.stored] = true)
    by reflexivity.
  split; [exact U|]. split; [exact H|].
  exact (save_article_to_db_existing_link 1700003600000000 "https://a/1"
           "X launches Y" "Y was launched" (Some "https://t.me/1001234/57")
           [Sample.stored] U H).
Defined.

(** C8, on the code: the eviction of the first turn raises five seconds
    after the hour; the handler logs it and the second turn polls the feeds
    at once.  The only waits are the one before the loop and the one that
    ends the second turn. *)
Theorem main_loop_retries_without_waiting :
  main Sample.channel (seconds 3540) Sample.locked_at_cleanup [] =
  mk_run
    [EvSleep (seconds 60);
     EvParseFeed "https://a/rss"; EvSelectTitles;
     EvDelete (seconds 3605 - timedelta_days 7);
     EvMainLoopError OperationalError;
     EvParseFeed "https://a/rss"; EvSelectTitles;
     EvDelete (seconds 3606 - timedelta_days 7);
     EvSleep (seconds 3593)]
    [] (Return tt).
Proof. vm_compute. reflexivity. Qed.

Lemma photo_failure_has_no_text_fallback_witness :
  outcome (extract_main_image (og_image_content Sample.photo_undeliverable)
             (image_probe Sample.photo_undeliverable) [])
  = Return (Some "https://a/1.png") /\
  (forall k, (k < 3)%nat ->
             deliveries Sample.photo_undeliverable k = DeliveryFailed) /\
  let r := process_entry_guarded Sample.channel []
             (Sample.entry, Sample.photo_undeliverable) [] in
  db_after r = [] /\ outcome r = Return tt /\
  filter is_text_delivery (trace r) = [] /\
  (filter is_delivery (trace r) = [] \/
   exists post,
     filter is_delivery (trace r) = repeat (EvSendPhoto "https://a/1.png" post) 3).
Proof.
  assert (I : outcome (extract_main_image
                         (og_image_content Sample.photo_undeliverable)
                         (image_probe Sample.photo_undeliverable) [])
              = Return (Some "https://a/1.png")) by reflexivity.
  assert (F : forall k, (k < 3)%nat ->
                        deliveries Sample.photo_undeliverable k = DeliveryFailed)
    by (intros; reflexivity).
  split; [exact I|]. split; [exact F|].
  exact (photo_failure_has_no_text_fallback Sample.channel [] Sample.entry
           Sample.photo_undeliverable [] "https://a/1.png" I F).
Defined.

(** The three photo deliveries of that entry, and nothing stored. *)
Example photo_undeliverable_run :
  process_entry_guarded Sample.channel []
    (Sample.entry, Sample.photo_undeliverable) [] =
  mk_run
    [EvSelectLink "https://a/1"; EvNovelty "X launches Y" [];
     EvFetch "https://a/1"; EvExtract "<html>X launches Y</html>";
     EvRelevance "X launches Y" "https://a/1";
     EvGenerate "X launches Y" "https://a/1";
     EvImageFetch "https://a/1.png";
     EvSendPhoto "https://a/1.png" "X has launched Y."; EvSleep (seconds 5);
     EvSendPhoto "https://a/1.png" "X has launched Y."; EvSleep (seconds 5);
     EvSendPhoto "https://a/1.png" "X has launched Y."; EvSleep (seconds 5)]
    [] (Return tt).
Proof. vm_compute. reflexivity. Qed.

Lemma insert_failure_leaves_no_record_witness :
  insert_fault Sample.locked_at_insert = Some OperationalError /\
  OperationalError <> IntegrityError /\
  let r := process_entry_guarded Sample.channel []
             (Sample.entry, Sample.locked_at_insert) [] in
  In (EvInsert "https://a/1") (trace r) /\
  In (EvEntryError "https://a/1" OperationalError) (trace r) /\
  outcome r = Return tt /\ db_after r = [] /\
  Articles.has_link "https://a/1" (db_after r) = false.
Proof.
  assert (NE : OperationalError <> IntegrityError) by discriminate.
  assert (Hins : In (EvInsert (entry_link Sample.entry))
                   (trace (process_entry_guarded Sample.channel []
                             (Sample.entry, Sample.locked_at_insert) [])))
    by (vm_compute; tauto).
  split; [reflexivity|]. split; [exact NE|].
  destruct (insert_failure_leaves_no_record Sample.channel [] Sample.entry
              Sample.locked_at_insert [] OperationalError eq_refl NE Hins)
    as (_ & _ & L & O & D & N & _).
  cbv zeta. repeat split; assumption.
Defined.

(* ------------------------------------------------------------------------- *)
(** ** The further properties on sample executions *)


Lemma cleanup_old_articles_twice_witness :
  seconds 3605 <= seconds 7205 /\
  (cleanup_old_articles None (seconds 3605) ;;
   cleanup_old_articles None (seconds 7205)) [Sample.stored] =
  mk_run [EvDelete (seconds 3605 - timedelta_days 7);
          EvDelete (seconds 7205 - timedelta_days 7)]
    (db_after (cleanup_old_articles None (seconds 7205) [Sample.stored]))
    (Return tt).
Proof.
  assert (H : seconds 3605 <= seconds 7205) by (vm_compute; discriminate).
  split; [exact H|].
  exact (cleanup_old_articles_twice (seconds 3605) (seconds 7205)
           [Sample.stored] H).
Defined.

Lemma stored_link_is_skipped_witness :
  Articles.has_link (entry_link Sample.entry) [Sample.stored] = true /\
  let r := process_entry_guarded Sample.channel ["X launches Y"]
             (Sample.entry, Sample.accepted) [Sample.stored] in
  db_after r = [Sample.stored] /\ outcome r = Return tt /\
  trace r = EvSelectLink (entry_link Sample.entry)
              :: match select_fault Sample.accepted with
                 | Some e => [EvEntryError (entry_link Sample.entry) e]
                 | None => []
                 end.
Proof.
  assert (H : Articles.has_link (entry_link Sample.entry) [Sample.stored] = true)
    by reflexivity.
  split; [exact H|].
  exact (stored_link_is_skipped Sample.channel ["X launches Y"] Sample.entry
           Sample.accepted [Sample.stored] H).
Defined.

Lemma accepted_entry_is_recorded_witness :
  let r := process_entry_guarded Sample.channel []
             (Sample.entry, Sample.accepted) [] in
  db_after r =
  [new_row [] (insert_clock Sample.accepted) (entry_link Sample.entry)
     (entry_title Sample.entry) "X launches Y"
     (telegram_message_link Sample.channel 42)] /\
  count_link (entry_link Sample.entry) (db_after r) = 1%nat /\
  Articles.unique_links (db_after r) /\
  PyStr.truthy (telegram_message_link Sample.channel 42) = true.
Proof.
  assert (U : Articles.unique_links []) by (unfold Articles.unique_links; constructor).
  assert (D : first_delivered (deliveries Sample.accepted) 0 42).
  { split; [lia|]. split; [reflexivity|]. intros j Hj. lia. }
  exact (accepted_entry_is_recorded Sample.channel [] Sample.entry
           Sample.accepted [] "<html>X launches Y</html>" "X launches Y"
           "X has launched Y." 0 42 U eq_refl eq_refl eq_refl eq_refl eq_refl
           eq_refl eq_refl eq_refl eq_refl D eq_refl).
Defined.

Lemma novelty_yes_stops_the_entry_witness :
  says_yes (Reply " YES ") = true /\
  process_entry_guarded Sample.channel []
    (Sample.entry,
     mk_script None (Reply " YES ") (Response "<html>X launches Y</html>")
       (Parsed "X launches Y") (Reply "Yes") (Reply "X has launched Y.")
       None ImageFetchFailed (Sample.always (Delivered 42)) None
       1700000000123456) [] =
  mk_run [EvSelectLink "https://a/1"; EvNovelty "X launches Y" []] []
    (Return tt).
Proof.
  assert (H : says_yes (Reply " YES ") = true) by reflexivity.
  split; [exact H|].
  exact (proj2 (novelty_yes_stops_the_entry Sample.channel [] Sample.entry
                  (mk_script None (Reply " YES ")
                     (Response "<html>X launches Y</html>")
                     (Parsed "X launches Y") (Reply "Yes")
                     (Reply "X has launched Y.") None ImageFetchFailed
                     (Sample.always (Delivered 42)) None 1700000000123456) [])
               eq_refl eq_refl H).
Defined.


(** The second source of the story is compared with the titles read before
    the first was stored, and so the story is stored twice. *)
Lemma second_source_meets_no_title :
  let r := process_rss_feed Sample.channel SampleFeed.two_sources [] in
  In (EvNovelty "X launches Y" []) (trace r) /\
  map Articles.link (db_after r) = ["https://a/1"; "https://b/7"] /\
  map Articles.title (db_after r) = ["X launches Y"; "X launches Y"].
Proof. vm_compute. tauto. Qed.

Lemma process_rss_feed_titles_snapshot_witness :
  In (EvNovelty "X launches Y" [])
    (trace (process_rss_feed Sample.channel SampleFeed.two_sources [])) /\
  @nil string = Articles.select_recent_titles [].
Proof.
  assert (H : In (EvNovelty "X launches Y" [])
                (trace (process_rss_feed Sample.channel SampleFeed.two_sources [])))
    by (vm_compute; tauto).
  split; [exact H|].
  exact (process_rss_feed_titles_snapshot Sample.channel SampleFeed.two_sources
           [] "X launches Y" [] H).
Defined.

Lemma feed_failure_ends_the_cycle_witness :
  polls SampleFeed.second_feed_fails
  = ([Sample.feed] ++ SampleFeed.locked :: [SampleFeed.two_sources])%list /\
  titles_fault SampleFeed.locked = Some OperationalError /\
  main_cycle Sample.channel SampleFeed.second_feed_fails [] =
  mk_run (trace (for_each [Sample.feed] (process_rss_feed Sample.channel) [])
          ++ [EvParseFeed (feed_url SampleFeed.locked); EvSelectTitles;
              EvMainLoopError OperationalError])
    (db_after (for_each [Sample.feed] (process_rss_feed Sample.channel) []))
    (Return tt).
Proof.
  assert (P : polls SampleFeed.second_feed_fails
              = ([Sample.feed] ++ SampleFeed.locked :: [SampleFeed.two_sources])%list)
    by reflexivity.
  assert (B : forall p, In p [Sample.feed] -> titles_fault p = None).
  { intros p [<-|[]]. reflexivity. }
  assert (F : titles_fault SampleFeed.locked = Some OperationalError)
    by reflexivity.
  split; [exact P|]. split; [exact F|].
  exact (feed_failure_ends_the_cycle Sample.channel SampleFeed.second_feed_fails
           [Sample.feed] [SampleFeed.two_sources] SampleFeed.locked
           OperationalError [] P B F).
Defined.


Lemma main_keeps_the_table_sound_witness :
  Articles.unique_links [Sample.stored] /\
  published [Sample.stored] /\
  let r := main Sample.channel (seconds 5) Sample.locked_at_cleanup
             [Sample.stored] in
  Articles.unique_links (db_after r) /\ published (db_after r).
Proof.
  assert (U : Articles.unique_links [Sample.stored]).
  { unfold Articles.unique_links. simpl. constructor; [simpl; tauto|constructor]. }
  assert (P : published [Sample.stored]).
  { intros row [<-|[]]. exists "https://t.me/1001234/42". split; reflexivity. }
  split; [exact U|]. split; [exact P|].
  exact (main_keeps_the_table_sound Sample.channel (seconds 5)
           Sample.locked_at_cleanup [Sample.stored] U P).
Defined.

(** A page text with blank lines, padded lines and the three usual line
    ends. *)
Lemma normalize_sample :
  Lines.normalize
    (String.concat ""
       ["  X launches Y  "; String (ascii_of_N 13) (String (ascii_of_N 10) "");
        String (ascii_of_N 9) ""; String (ascii_of_N 10) "";
        String (ascii_of_N 10) ""; "It flies. "; String (ascii_of_N 13) "";
        " More"; String (ascii_of_N 10) ""])
  = String.concat (String (ascii_of_N 10) "")
      ["X launches Y"; "It flies."; "More"].
Proof. vm_compute. reflexivity. Qed.
